(** * aq: command table, preconditions and exit-code dispatch

    A shallow embedding of [cli/run.go] of aq-go, the command line tool for
    AWS Athena: the flag and command tables, the [Before] precondition of
    each subcommand, the default action, [Run] and [msg].

    Conventions.
    - A Go [string] is a [string]; the Go functions of package [strings]
      that the source calls ([Split], [HasPrefix], [Join]) are written out
      over it.
    - A Go [error] is the inductive [error]: [nil], a plain error, or the
      [cli.ExitError] built by [cli.NewExitError].
    - Code that talks to the outside (the confirmation prompt, the error
      stream, the action handlers of package [cmd]) is a tree of requests
      [Prog]; a theorem about such a tree holds for every implementation of
      the outside. *)

From Stdlib Require Import String Ascii List ZArith Bool Lia DecimalString.
From ExtLib Require Import Structures.Monad.
Import ListNotations.
Import MonadNotation.

Local Open Scope string_scope.
Local Open Scope list_scope.
Local Open Scope monad_scope.

(** ** Package [strings] *)

Module strings.

(** [strings.HasPrefix(s, prefix)]. *)
Definition HasPrefix (s pre : string) : bool := String.prefix pre s.

(** [strings.Join(elems, sep)]. *)
Definition Join (elems : list string) (sep : string) : string :=
  String.concat sep elems.

(** [strings.Contains(s, substr)]. *)
Definition Contains (s substr : string) : bool :=
  match String.index 0 substr s with
  | Some _ => true
  | None => false
  end.

(** The loop of [genSplit] for a separator that is not empty.  [skip]
    counts the bytes of a separator that was just recognised and is
    still to be dropped; [cur] is the piece read so far. *)
Fixpoint genSplit (sep s : string) (skip : nat) (cur : string)
  : list string :=
  match s with
  | EmptyString => [cur]
  | String ch s' =>
      match skip with
      | S k => genSplit sep s' k cur
      | O =>
          if String.prefix sep s
          then cur :: genSplit sep s' (String.length sep - 1) ""
          else genSplit sep s' 0 (cur ++ String ch "")
      end
  end.

(** [strings.Split(s, sep)] for a separator that is not empty, as all
    separators of [run.go] and of its flag names are: the pieces of [s]
    between the occurrences of [sep].  An empty separator is outside this
    model: Go then cuts after every UTF-8 sequence, and the cut after
    every byte made here agrees with it on ASCII text only. *)
Definition Split (s sep : string) : list string :=
  match sep with
  | EmptyString => map (fun ch => String ch "") (list_ascii_of_string s)
  | _ => genSplit sep s 0 ""
  end.

(** [strings.Trim(s, cutset)]: [s] without the leading and trailing bytes
    that occur in [cutset]. *)
Definition inCutset (ch : ascii) (cutset : string) : bool :=
  existsb (Ascii.eqb ch) (list_ascii_of_string cutset).

Fixpoint TrimLeft (s cutset : string) : string :=
  match s with
  | EmptyString => ""
  | String ch s' => if inCutset ch cutset then TrimLeft s' cutset else s
  end.

Fixpoint TrimRight (s cutset : string) : string :=
  match s with
  | EmptyString => ""
  | String ch s' =>
      match TrimRight s' cutset with
      | EmptyString => if inCutset ch cutset then "" else String ch ""
      | t => String ch t
      end
  end.

Definition Trim (s cutset : string) : string :=
  TrimRight (TrimLeft s cutset) cutset.

End strings.

(** The number of occurrences of the byte [ch] in [s]. *)
Fixpoint count_byte (ch : ascii) (s : string) : nat :=
  match s with
  | EmptyString => 0
  | String x s' => (if Ascii.eqb x ch then 1 else 0) + count_byte ch s'
  end.

(** The line feed written by ["\n"] in a Go format string. *)
Definition LF : string := String (ascii_of_nat 10) "".

(** ** Errors *)

(** A Go [error] value as this program meets it. *)
Inductive error : Type :=
| nil
| Err (message : string)
| ExitError (message : string) (exitCode : Z).

(** [cli.NewExitError(message, exitCode)]. *)
Definition NewExitError (message : string) (exitCode : Z) : error :=
  ExitError message exitCode.

(** [err.Error()], which is what the verb [%v] prints for an error. *)
Definition Error (e : error) : string :=
  match e with
  | nil => "<nil>"
  | Err m => m
  | ExitError m _ => m
  end.

Definition is_nil (e : error) : bool :=
  match e with nil => true | _ => false end.

(** ** Flags and contexts *)

(** The three kinds of flag of the command table.  A field the source
    leaves out has Go's zero value (the empty string). *)
Inductive Flag : Type :=
| StringFlag (Name Value Usage EnvVar : string)
| IntFlag (Name : string) (Value : Z) (Usage : string)
| BoolFlag (Name Usage : string).

Definition flagName (f : Flag) : string :=
  match f with
  | StringFlag n _ _ _ => n
  | IntFlag n _ _ => n
  | BoolFlag n _ => n
  end.

(** The names a flag answers to, cut at the commas and without the blanks
    around them: ["bucket, b"] gives [bucket] and [b]. *)
Definition flagNames (f : Flag) : list string :=
  map (fun name => strings.Trim name " ") (strings.Split (flagName f) ",").

(** The text of the flag's value when nothing is passed for it. *)
Definition flagDefault (f : Flag) : string :=
  match f with
  | StringFlag _ v _ _ => v
  | IntFlag _ v _ => NilZero.string_of_int (Z.to_int v)
  | BoolFlag _ _ => "false"
  end.

Definition flagEnvVar (f : Flag) : string :=
  match f with
  | StringFlag _ _ _ e => e
  | _ => ""
  end.

(** An association list from names to texts, searched from the front. *)
Fixpoint lookup (k : string) (l : list (string * string)) : option string :=
  match l with
  | [] => None
  | (k', v) :: l' => if String.eqb k k' then Some v else lookup k l'
  end.

(** The first of [names] that [l] has a value for. *)
Fixpoint lookupAny (names : list string) (l : list (string * string))
  : option string :=
  match names with
  | [] => None
  | n :: names' =>
      match lookup n l with
      | Some v => Some v
      | None => lookupAny names' l
      end
  end.

(** [*cli.Context]: the values of the flags of the matched command, under
    each of their names, and the positional arguments. *)
Record Context : Type := mkContext {
  flagSet : list (string * string);
  args : list string
}.

(** Modelled from the spec: the flag resolution of the command line library
    (github.com/urfave/cli), which [src/] only calls.  Spec 3 and 4.2: the
    value of a flag is the explicit command line value, else the
    environment variable of the flag, else its static default.  [given]
    holds the flags passed on the command line, [environ] the process
    environment. *)
Definition resolveFlag (given environ : list (string * string)) (f : Flag)
  : string :=
  match lookupAny (flagNames f) given with
  | Some v => v
  | None =>
      match flagEnvVar f with
      | EmptyString => flagDefault f
      | e =>
          match lookup e environ with
          | Some v => v
          | None => flagDefault f
          end
      end
  end.

(** Modelled from the spec: the flag set the library builds for a command
    (spec 3, ParsedInvocation); every name of a flag is bound to the
    resolved value. *)
Definition resolveFlags (flags : list Flag)
  (given environ : list (string * string)) : list (string * string) :=
  flat_map
    (fun f => map (fun n => (n, resolveFlag given environ f)) (flagNames f))
    flags.

(** Modelled from the spec: the context of one invocation of a command
    with the flags [flags] (spec 3, ParsedInvocation). *)
Definition NewContext (flags : list Flag)
  (given environ : list (string * string)) (positional : list string)
  : Context :=
  mkContext (resolveFlags flags given environ) positional.

(** [strconv.ParseBool], with [false] where it reports an error. *)
Definition ParseBool (s : string) : bool :=
  if String.eqb s "1" then true
  else if String.eqb s "t" then true
  else if String.eqb s "T" then true
  else if String.eqb s "true" then true
  else if String.eqb s "TRUE" then true
  else if String.eqb s "True" then true
  else false.

Module ctx.

(** [c.String(name)]: the value of the flag, [""] when there is none. *)
Definition String (c : Context) (name : string) : string :=
  match lookup name (flagSet c) with
  | Some v => v
  | None => ""
  end.

(** [c.Bool(name)]. *)
Definition Bool (c : Context) (name : string) : bool :=
  match lookup name (flagSet c) with
  | Some v => ParseBool v
  | None => false
  end.

(** [c.NArg()]. *)
Definition NArg (c : Context) : nat := List.length (args c).

(** [c.Args().Get(n)]: the [n]-th positional argument, [""] when there
    are not that many. *)
Definition Get (c : Context) (n : nat) : string := nth n (args c) "".

(** [c.Args().First()]. *)
Definition First (c : Context) : string := Get c 0.

End ctx.

(** ** Talking to the outside *)

(** Modelled from the spec: the result of an action handler of package
    [cmd], which is not in [src/].  Spec 3, ExecutionResult: either Success
    or Failure(error); the error is kept as its message. *)
Inductive ExecutionResult : Type :=
| Success
| Failure (message : string).

(** A computation that returns an [A] after some requests to the outside:
    - [Ask question k]: [prompt.Ask(question)], which answers with a pair
      of a [bool] and an [error];
    - [Stderr text k]: [text] is written to [os.Stderr];
    - [Call handler c k]: the action handler [handler] of package [cmd]
      runs on the context [c]. *)
Inductive Prog (A : Type) : Type :=
| Ret (a : A)
| Ask (question : string) (k : bool * error -> Prog A)
| Stderr (text : string) (k : Prog A)
| Call (handler : string) (c : Context) (k : ExecutionResult -> Prog A).

Arguments Ret {A} a.
Arguments Ask {A} question k.
Arguments Stderr {A} text k.
Arguments Call {A} handler c k.

Fixpoint bindProg {A B : Type} (p : Prog A) (f : A -> Prog B) : Prog B :=
  match p with
  | Ret a => f a
  | Ask q k => Ask q (fun r => bindProg (k r) f)
  | Stderr t k => Stderr t (bindProg k f)
  | Call h c k => Call h c (fun r => bindProg (k r) f)
  end.

#[global] Instance Monad_Prog : Monad Prog :=
  {| ret := @Ret; bind := @bindProg |}.

(** What happened outside during a run, oldest first. *)
Inductive Event : Type :=
| Asked (question : string)
| Printed (text : string)
| Called (handler : string) (c : Context).

(** One implementation of the outside: the terminal behind the prompt and
    the action handlers. *)
Record World : Type := mkWorld {
  prompt_Ask : string -> bool * error;
  cmd_handler : string -> Context -> ExecutionResult
}.

(** [exec w p]: the value of [p] in the world [w] and the events of the
    run. *)
Fixpoint exec {A : Type} (w : World) (p : Prog A) : A * list Event :=
  match p with
  | Ret a => (a, [])
  | Ask q k =>
      let (a, tr) := exec w (k (prompt_Ask w q)) in (a, Asked q :: tr)
  | Stderr t k =>
      let (a, tr) := exec w k in (a, Printed t :: tr)
  | Call h c k =>
      let (a, tr) := exec w (k (cmd_handler w h c)) in (a, Called h c :: tr)
  end.

Definition isAsked (e : Event) : bool :=
  match e with Asked _ => true | _ => false end.

(** [fmt.Fprintf(os.Stderr, ...)] with the formatted text. *)
Definition Fprintf_Stderr (text : string) : Prog unit :=
  Stderr text (Ret tt).

Module prompt.

(** [prompt.Ask(question)] of github.com/Bowery/prompt. *)
Definition Ask (question : string) : Prog (bool * error) :=
  Ask question (fun r => Ret r).

End prompt.

Module cmd.

(** Modelled from the spec: the action handlers [cmd.Query], [cmd.Ls],
    [cmd.Head], [cmd.Mk], [cmd.Rm] and [cmd.Load] of package [cmd], which
    is not in [src/].  Spec 4.5: an opaque capability
    [execute(invocation) -> ExecutionResult]. *)
Definition handler (name : string) (c : Context) : Prog error :=
  Call name c
    (fun r => match r with
              | Success => Ret nil
              | Failure m => Ret (Err m)
              end).

Definition Query := handler "Query".
Definition Ls := handler "Ls".
Definition Head := handler "Head".
Definition Mk := handler "Mk".
Definition Rm := handler "Rm".
Definition Load := handler "Load".

End cmd.

(** ** The command table *)

Definition BucketFlag : Flag :=
  StringFlag "bucket, b" ""
    "S3 bucket where the query result is stored." "AQ_DEFAULT_BUCKET".

(** [today] is [time.Now().Format("2006/01/02")] at the time the package
    is initialised. *)
Definition ObjectPrefixFlag (today : string) : Flag :=
  StringFlag "object_prefix, o" ("Unsaved/" ++ today)
    "S3 object prefix where the query result is stored." "".

Record Command : Type := mkCommand {
  Name : string;
  Usage : string;
  Action : Context -> Prog error;
  ArgsUsage : string;
  Flags : list Flag;
  Before : Context -> Prog error
}.

Definition query_Before (c : Context) : Prog error :=
  if Nat.eqb (ctx.NArg c) 0 then
    ret (NewExitError "QUERY must be specified." 1)
  else if String.eqb (ctx.String c "bucket") "" then
    ret (NewExitError "bucket must be specified." 1)
  else ret nil.

Definition ls_Before (c : Context) : Prog error :=
  if String.eqb (ctx.String c "bucket") "" then
    ret (NewExitError "bucket must be specified." 1)
  else ret nil.

Definition head_Before (c : Context) : Prog error :=
  if String.eqb (ctx.String c "bucket") "" then
    ret (NewExitError "bucket must be specified." 1)
  else if Nat.eqb (ctx.NArg c) 0 then
    ret (NewExitError "DATABASE and TABLE must be specified." 1)
  else if negb (Nat.eqb (length (strings.Split (ctx.First c) ".")) 2) then
    ret (NewExitError "[DATABASE].[TABLE] must contain `.`." 1)
  else ret nil.

Definition mk_Before (c : Context) : Prog error :=
  if String.eqb (ctx.String c "bucket") "" then
    ret (NewExitError "bucket must be specified." 1)
  else if Nat.eqb (ctx.NArg c) 0 then
    ret (NewExitError "DATABASE must be specified." 1)
  else if Nat.leb 2 (length (strings.Split (ctx.First c) ".")) then
    ret (NewExitError "If you want to create table, use `load` subcommand." 1)
  else ret nil.

Definition rm_Before (c : Context) : Prog error :=
  if String.eqb (ctx.String c "bucket") "" then
    ret (NewExitError "bucket must be specified." 1)
  else if Nat.eqb (ctx.NArg c) 0 then
    ret (NewExitError "NAME must be specified." 1)
  else
    answer <- (if ctx.Bool c "force" then ret true
               else r <- prompt.Ask ("Would you remove " ++ ctx.First c) ;;
                    ret (fst r)) ;;
    if negb answer then ret (NewExitError "Canceled." 1)
    else ret nil.

Definition load_Before (c : Context) : Prog error :=
  if String.eqb (ctx.String c "bucket") "" then
    ret (NewExitError "bucket must be specified." 1)
  else if negb (strings.HasPrefix (ctx.Get c 1) "s3://") then
    ret (NewExitError "`SOURCE` must start with 's3://'" 1)
  else if negb (String.eqb (ctx.String c "source_format")
                  "NEWLINE_DELIMITED_JSON") then
    ret (NewExitError "Now aq support only NEWLINE_DELIMITED_JSON." 1)
  else ret nil.

Section Table.

Variable today : string.

Definition Commands : list Command :=
  [ {| Name := "query";
       Usage := "Run query";
       Action := cmd.Query;
       ArgsUsage := "QUERY";
       Flags :=
         [ BucketFlag;
           ObjectPrefixFlag today;
           IntFlag "timeout, t" 0
             "Wait for execution of the query for this number of seconds. If this is set to 0, timeout is disabled." ];
       Before := query_Before |};
    {| Name := "ls";
       Usage := "Show databases or tables in specified database";
       Action := cmd.Ls;
       ArgsUsage := "[DATABASE]";
       Flags := [ BucketFlag; ObjectPrefixFlag today ];
       Before := ls_Before |};
    {| Name := "head";
       Usage := "Show records in specified table";
       Action := cmd.Head;
       ArgsUsage := "DATABASE.TABLE";
       Flags :=
         [ BucketFlag;
           ObjectPrefixFlag today;
           IntFlag "max_rows, n" 100 "This number of rows are printed." ];
       Before := head_Before |};
    {| Name := "mk";
       Usage := "Create database";
       Action := cmd.Mk;
       ArgsUsage := "DATABASE";
       Flags := [ BucketFlag; ObjectPrefixFlag today ];
       Before := mk_Before |};
    {| Name := "rm";
       Usage := "Drop database or table";
       Action := cmd.Rm;
       ArgsUsage := "NAME";
       Flags :=
         [ BucketFlag;
           ObjectPrefixFlag today;
           BoolFlag "force, f" "Skip confirmation if this is set." ];
       Before := rm_Before |};
    {| Name := "load";
       Usage := "Create table and load data";
       Action := cmd.Load;
       ArgsUsage := "DATABASE.TABLE SOURCE SCHEMA";
       Flags :=
         [ BucketFlag;
           ObjectPrefixFlag today;
           StringFlag "source_format, s" "NEWLINE_DELIMITED_JSON"
             "Specify source file data format. Now aq support only NEWLINE_DELIMITED_JSON."
             "";
           StringFlag "partitioning, p" ""
             "Specify partition key and type. ex. key1:type1,key2:type2,..."
             "" ];
       Before := load_Before |} ].

End Table.

(** ** Running the application *)

(** One start of the program, as the command line library hands it on:
    [os.Args[0]], the first token after it when there is one, the flags
    passed after that token and the positional arguments. *)
Record Invocation : Type := mkInvocation {
  program : string;
  subcommand : option string;
  given : list (string * string);
  positional : list string
}.

(** How [app.Run] ends: the process has exited inside the library with a
    code, or the call returns an [error] to [Run]. *)
Inductive RunResult : Type :=
| Exited (code : Z)
| Returned (err : error).

(** [msg(err)]; [arg0] is [os.Args[0]]. *)
Definition msg (arg0 : string) (err : error) : Prog Z :=
  if negb (is_nil err) then
    Fprintf_Stderr (arg0 ++ ": " ++ Error err ++ LF) ;;
    ret 1%Z
  else ret 0%Z.

Section App.

Variable today : string.

(** [app.Command(name)]: the first command of the table with that
    name. *)
Definition lookupCommand (name : string) : option Command :=
  find (fun c => String.eqb (Name c) name) (Commands today).

(** The closure assigned to [app.Action] in [Run]. *)
Definition defaultAction : Prog unit :=
  let subcmds :=
    fold_left (fun acc subcmd => acc ++ [Name subcmd]) (Commands today) []
  in
  Fprintf_Stderr ("Subcommands" ++ ": " ++ strings.Join subcmds ", " ++ LF).

(** Modelled from the spec: a matched command in the command line
    library, which [src/] only calls.  Spec 4.3 to 4.5: the precondition
    runs on the parsed invocation; a Rejected outcome ends the process
    with its exit code and its message on the error stream and the
    command never reaches the action; after an Accepted outcome the
    action handler runs and its result goes back to the caller. *)
Definition commandRun (c : Command) (cx : Context) : Prog RunResult :=
  e <- Before c cx ;;
  match e with
  | nil => r <- Action c cx ;; ret (Returned r)
  | ExitError m code => Fprintf_Stderr (m ++ LF) ;; ret (Exited code)
  | Err _ => ret (Returned e)
  end.

(** Modelled from the spec: [app.Run(os.Args)] of the command line
    library.  Spec 4.2 and 4.5: the first token is matched against the
    command table; when there is no token, or it matches no registered
    name, control passes to the fallback action. *)
Definition appRun (environ : list (string * string)) (inv : Invocation)
  : Prog RunResult :=
  match subcommand inv with
  | Some tok =>
      match lookupCommand tok with
      | Some c =>
          commandRun c
            (NewContext (Flags c) (given inv) environ (positional inv))
      | None => defaultAction ;; ret (Returned nil)
      end
  | None => defaultAction ;; ret (Returned nil)
  end.

(** [Run()]: the exit code of the process.  The name, usage and version
    of the application and its bash completion only change the help texts
    of the library and are left out. *)
Definition Run (environ : list (string * string)) (inv : Invocation)
  : Prog Z :=
  r <- appRun environ inv ;;
  match r with
  | Exited code => ret code
  | Returned err => msg (program inv) err
  end.

End App.

(** ** The validation outcome of the spec *)

(** Spec 3, ValidationOutcome. *)
Inductive ValidationOutcome : Type :=
| Accepted
| Rejected (message : string) (exitCode : Z).

(** The outcome an [error] returned by a precondition stands for. *)
Definition outcome (e : error) : ValidationOutcome :=
  match e with
  | nil => Accepted
  | Err m => Rejected m 1
  | ExitError m code => Rejected m code
  end.

(** The outcome of the precondition [before] on [c] in the world [w]. *)
Definition validate (w : World) (before : Context -> Prog error)
  (c : Context) : ValidationOutcome :=
  outcome (fst (exec w (before c))).

(** The questions the prompt was asked while [before] ran on [c]. *)
Definition prompts (w : World) (before : Context -> Prog error)
  (c : Context) : list Event :=
  filter isAsked (snd (exec w (before c))).

(** The bucket flag has a value. *)
Definition bucketSet (c : Context) : Prop := ctx.String c "bucket" <> "".

(** ** The table of required checks of the spec *)

Module SpecTable.

(** The rules of the table of spec 4.3. *)
Inductive Check : Type :=
| HasArgument (message : string)
| BucketFlagSet
| ExactlyTwoParts
| FewerThanTwoParts
| ConfirmationObtained
| SourceHasPrefix
| SourceFormatSupported.

(** One rule on one invocation: [nil] when it holds, else the Rejected
    outcome with the message of the rule and exit code 1. *)
Definition check (r : Check) (c : Context) : Prog error :=
  match r with
  | HasArgument m =>
      ret (if Nat.leb 1 (List.length (args c)) then nil
           else ExitError m 1)
  | BucketFlagSet =>
      ret (if String.eqb (ctx.String c "bucket") "" then
             ExitError "bucket must be specified." 1
           else nil)
  | ExactlyTwoParts =>
      ret (if Nat.eqb (length (strings.Split (ctx.First c) ".")) 2 then nil
           else ExitError "[DATABASE].[TABLE] must contain `.`." 1)
  | FewerThanTwoParts =>
      ret (if Nat.ltb (length (strings.Split (ctx.First c) ".")) 2 then nil
           else
             ExitError "If you want to create table, use `load` subcommand."
               1)
  | ConfirmationObtained =>
      if ctx.Bool c "force" then ret nil
      else
        answer <- prompt.Ask ("Would you remove " ++ ctx.First c) ;;
        ret (if fst (answer : bool * error) then nil
             else ExitError "Canceled." 1)
  | SourceHasPrefix =>
      ret (if strings.HasPrefix (ctx.Get c 1) "s3://" then nil
           else ExitError "`SOURCE` must start with 's3://'" 1)
  | SourceFormatSupported =>
      ret (if String.eqb (ctx.String c "source_format")
                "NEWLINE_DELIMITED_JSON"
           then nil
           else ExitError "Now aq support only NEWLINE_DELIMITED_JSON." 1)
  end.

(** The rules in order; the first one that fails ends the evaluation. *)
Fixpoint evaluate (rules : list Check) (c : Context) : Prog error :=
  match rules with
  | [] => ret nil
  | r :: rules' =>
      e <- check r c ;;
      match e with
      | nil => evaluate rules' c
      | _ => ret e
      end
  end.

(** The rows of the table, each in the order of the spec. *)
Definition required (command : string) : list Check :=
  if String.eqb command "query" then
    [HasArgument "QUERY must be specified."; BucketFlagSet]
  else if String.eqb command "ls" then
    [BucketFlagSet]
  else if String.eqb command "head" then
    [BucketFlagSet; HasArgument "DATABASE and TABLE must be specified.";
     ExactlyTwoParts]
  else if String.eqb command "mk" then
    [BucketFlagSet; HasArgument "DATABASE must be specified.";
     FewerThanTwoParts]
  else if String.eqb command "rm" then
    [BucketFlagSet; HasArgument "NAME must be specified.";
     ConfirmationObtained]
  else if String.eqb command "load" then
    [BucketFlagSet; SourceHasPrefix; SourceFormatSupported]
  else [].

End SpecTable.

(** ** A sentence of the spec, in its words *)

(** "Invoking a command of [names] with the bucket flag not passed on the
    command line and the bucket environment variable unset yields a
    Rejected outcome with exit code 1 and a message containing
    [bucket must be specified.]" *)
Definition bucket_required (names : list string) : Prop :=
  forall (today name : string) (c : Command)
         (given environ : list (string * string))
         (positional : list string) (w : World),
    In name names ->
    lookupCommand today name = Some c ->
    lookupAny (flagNames BucketFlag) given = None ->
    lookup "AQ_DEFAULT_BUCKET" environ = None ->
    exists m,
      validate w (Before c) (NewContext (Flags c) given environ positional)
        = Rejected m 1 /\
      strings.Contains m "bucket must be specified." = true.

(** ** The confirmation read *)

(** The result of the confirmation read of spec 4.4 is true, false or an
    error.  [prompt.Ask], whose package is not in [src/], returns it as a
    pair of an answer and an error; as Go functions do, a read that fails
    returns its error with the zero value of the answer, [false].
    [failsWithFalse r] says that the pair [r] is such a result. *)
Definition failsWithFalse (r : bool * error) : Prop :=
  snd r <> nil -> fst r = false.

(** ** Worlds for the examples *)

(** A world whose prompt declines and whose handlers succeed. *)
Definition quietWorld : World :=
  mkWorld (fun _ => (false, nil)) (fun _ _ => Success).

(** A world whose terminal is closed: the read fails. *)
Definition closedTerminal : World :=
  mkWorld (fun _ => (false, Err "EOF")) (fun _ _ => Success).

(** * Properties *)

(** ** Running a sequence *)

Lemma exec_bind {A B : Type} (w : World) (p : Prog A) (f : A -> Prog B) :
  exec w (bind p f) =
    (fst (exec w (f (fst (exec w p)))),
     snd (exec w p) ++ snd (exec w (f (fst (exec w p))))).
Proof.
  induction p as [a | q k IH | t k IH | h c k IH]; cbn [bind Monad_Prog].
  - cbn. destruct (exec w (f a)); reflexivity.
  - cbn [bindProg exec]. specialize (IH (prompt_Ask w q)).
    cbn [bind Monad_Prog] in IH. rewrite IH.
    destruct (exec w (k (prompt_Ask w q))); reflexivity.
  - cbn [bindProg exec]. cbn [bind Monad_Prog] in IH. rewrite IH.
    destruct (exec w k); reflexivity.
  - cbn [bindProg exec]. specialize (IH (cmd_handler w h c)).
    cbn [bind Monad_Prog] in IH. rewrite IH.
    destruct (exec w (k (cmd_handler w h c))); reflexivity.
Qed.

(** ** Flags *)

Lemma bucketSet_eqb (c : Context) :
  bucketSet c -> String.eqb (ctx.String c "bucket") "" = false.
Proof. intro H. apply String.eqb_neq. exact H. Qed.

Lemma bucket_unset_eqb (c : Context) :
  ctx.String c "bucket" = "" -> String.eqb (ctx.String c "bucket") "" = true.
Proof. intro H. rewrite H. reflexivity. Qed.

(** The bucket flag is the first flag of every command: its value in the
    context of a command is the resolved value of [BucketFlag]. *)
Lemma bucket_of_NewContext (rest : list Flag)
  (given environ : list (string * string)) (positional : list string) :
  ctx.String (NewContext (BucketFlag :: rest) given environ positional)
    "bucket" = resolveFlag given environ BucketFlag.
Proof. reflexivity. Qed.

(** Nothing passed and nothing in the environment: the bucket is empty,
    the default of the flag. *)
Lemma resolve_bucket_unset (given environ : list (string * string)) :
  lookupAny (flagNames BucketFlag) given = None ->
  lookup "AQ_DEFAULT_BUCKET" environ = None ->
  resolveFlag given environ BucketFlag = "".
Proof.
  intros Hg He. unfold resolveFlag. rewrite Hg.
  cbn [flagEnvVar BucketFlag]. rewrite He. reflexivity.
Qed.

(** The commands of the table, by name. *)
Lemma lookupCommand_cases (today name : string) (c : Command) :
  lookupCommand today name = Some c ->
  Name c = name /\ In c (Commands today) /\
  exists rest, Flags c = BucketFlag :: rest /\
    ((name = "query" /\ Before c = query_Before /\ Action c = cmd.Query) \/
     (name = "ls" /\ Before c = ls_Before /\ Action c = cmd.Ls) \/
     (name = "head" /\ Before c = head_Before /\ Action c = cmd.Head) \/
     (name = "mk" /\ Before c = mk_Before /\ Action c = cmd.Mk) \/
     (name = "rm" /\ Before c = rm_Before /\ Action c = cmd.Rm) \/
     (name = "load" /\ Before c = load_Before /\ Action c = cmd.Load)).
Proof.
  unfold lookupCommand, Commands. cbn [find Name]. intro H.
  repeat match type of H with
         | (if String.eqb ?a ?b then _ else _) = _ =>
             destruct (String.eqb_spec a b) as [E | E];
             [ injection H as <-; subst name; cbn [Name Flags Before Action];
               split; [reflexivity |];
               split; [cbn; tauto |];
               eexists; split; [reflexivity | tauto]
             | clear E ]
         end.
  discriminate H.
Qed.

(** The names of the table are unique: every command of the table is the
    one found under its name. *)
Lemma lookupCommand_In (today : string) (c : Command) :
  In c (Commands today) -> lookupCommand today (Name c) = Some c.
Proof.
  intro H. cbn in H.
  destruct H as [<- | [<- | [<- | [<- | [<- | [<- | []]]]]]]; reflexivity.
Qed.

Lemma lookupCommand_None (today tok : string) :
  ~ In tok (map Name (Commands today)) -> lookupCommand today tok = None.
Proof.
  intro H. unfold lookupCommand.
  destruct (find _ _) as [c |] eqn:F; [| reflexivity].
  apply find_some in F. destruct F as [Hin Heq].
  apply String.eqb_eq in Heq. exfalso. apply H. rewrite <- Heq.
  apply in_map. exact Hin.
Qed.

(** ** Splitting on a dot *)

Lemma prefix_empty (s : string) : String.prefix "" s = true.
Proof. destruct s; reflexivity. Qed.

Lemma prefix_dot (ch : ascii) (s : string) :
  String.prefix "." (String ch s) = Ascii.eqb ch ".".
Proof.
  cbn [String.prefix]. destruct (ascii_dec "." ch) as [<- | N].
  - rewrite prefix_empty. reflexivity.
  - symmetry. apply Ascii.eqb_neq. congruence.
Qed.

Lemma genSplit_dot_step (ch : ascii) (s cur : string) :
  strings.genSplit "." (String ch s) 0 cur =
    if Ascii.eqb ch "." then cur :: strings.genSplit "." s 0 ""
    else strings.genSplit "." s 0 (cur ++ String ch "").
Proof.
  cbn [strings.genSplit]. rewrite prefix_dot. reflexivity.
Qed.

Lemma append_snoc (a : string) (ch : ascii) (b : string) :
  ((a ++ String ch "") ++ b = a ++ String ch b)%string.
Proof.
  induction a as [| x a IH]; cbn; [reflexivity | now rewrite IH].
Qed.

Lemma append_empty_r (a : string) : (a ++ "")%string = a.
Proof. induction a as [| x a IH]; cbn; [reflexivity | now rewrite IH]. Qed.

(** Splitting on a dot gives one more piece than there are dots. *)
Lemma length_genSplit_dot (s cur : string) :
  length (strings.genSplit "." s 0 cur) = S (count_byte "." s).
Proof.
  revert cur. induction s as [| ch s IH]; intro cur.
  - reflexivity.
  - rewrite genSplit_dot_step. cbn [count_byte].
    destruct (Ascii.eqb ch "."); cbn [length]; rewrite IH; reflexivity.
Qed.

Lemma length_Split_dot (s : string) :
  length (strings.Split s ".") = S (count_byte "." s).
Proof. apply length_genSplit_dot. Qed.

(** A piece without a dot is read up to its end. *)
Lemma genSplit_no_dot (s cur : string) :
  count_byte "." s = 0 ->
  strings.genSplit "." s 0 cur = [(cur ++ s)%string].
Proof.
  revert cur. induction s as [| ch s IH]; intros cur H.
  - cbn. now rewrite append_empty_r.
  - rewrite genSplit_dot_step. cbn [count_byte] in H.
    destruct (Ascii.eqb ch "."); [discriminate H |].
    rewrite IH by exact H. now rewrite append_snoc.
Qed.

(** [db.tbl] splits into [db] and [tbl], empty or not. *)
Lemma Split_database_table (db tbl : string) :
  count_byte "." db = 0 -> count_byte "." tbl = 0 ->
  strings.Split (db ++ "." ++ tbl) "." = [db; tbl].
Proof.
  intros Hdb Htbl. unfold strings.Split.
  assert (G : forall cur,
             strings.genSplit "." (db ++ "." ++ tbl) 0 cur =
               [(cur ++ db)%string; tbl]).
  { induction db as [| ch db IH]; intro cur.
    - cbn [append]. rewrite genSplit_dot_step. cbn [Ascii.eqb Bool.eqb].
      rewrite genSplit_no_dot by exact Htbl. now rewrite append_empty_r.
    - cbn [append]. rewrite genSplit_dot_step. cbn [count_byte] in Hdb.
      destruct (Ascii.eqb ch "."); [discriminate Hdb |].
      rewrite IH by exact Hdb. now rewrite append_snoc. }
  apply G.
Qed.

(** ** The bucket is required *)

(** C1, as stated, fails: [query] with no positional argument, no bucket
    flag and no bucket environment variable is rejected by its first check,
    with the message [QUERY must be specified.], which does not contain
    [bucket must be specified.] *)
Lemma bucket_required_all_commands_fails :
  ~ bucket_required ["query"; "ls"; "head"; "mk"; "rm"; "load"].
Proof.
  intro H.
  destruct (H "2026/10/31" "query"
              (nth 0 (Commands "2026/10/31")
                 (mkCommand "" "" cmd.Ls "" [] ls_Before))
              [] [] [] quietWorld)
    as [m [Hv Hm]]; try reflexivity.
  - cbn; tauto.
  - vm_compute in Hv. injection Hv as <-. vm_compute in Hm. discriminate Hm.
Qed.

(** C1, amended: for every command of the table, with the bucket flag not
    passed and the bucket environment variable unset, the precondition
    rejects the invocation with exit code 1; the message is
    [bucket must be specified.], except for [query] without a positional
    argument, whose message is [QUERY must be specified.] *)
Theorem bucket_missing_rejected
  (today name : string) (c : Command)
  (given environ : list (string * string)) (positional : list string)
  (w : World) :
  lookupCommand today name = Some c ->
  lookupAny (flagNames BucketFlag) given = None ->
  lookup "AQ_DEFAULT_BUCKET" environ = None ->
  validate w (Before c) (NewContext (Flags c) given environ positional) =
    if String.eqb name "query" && Nat.eqb (length positional) 0
    then Rejected "QUERY must be specified." 1
    else Rejected "bucket must be specified." 1.
Proof.
  intros Hc Hg He.
  destruct (lookupCommand_cases _ _ _ Hc) as [_ [_ [rest [Hf Hcases]]]].
  rewrite Hf. unfold validate.
  assert (Hb : String.eqb
                 (ctx.String (NewContext (BucketFlag :: rest) given environ
                                positional) "bucket") "" = true).
  { apply bucket_unset_eqb. rewrite bucket_of_NewContext.
    apply resolve_bucket_unset; assumption. }
  destruct Hcases as [[-> [-> _]] | [[-> [-> _]] | [[-> [-> _]] |
                     [[-> [-> _]] | [[-> [-> _]] | [-> [-> _]]]]]]].
  - unfold query_Before. cbn [String.eqb Ascii.eqb Bool.eqb andb].
    change (ctx.NArg (NewContext (BucketFlag :: rest) given environ
                        positional)) with (length positional).
    destruct (Nat.eqb (length positional) 0); [reflexivity |].
    rewrite Hb. reflexivity.
  - unfold ls_Before. rewrite Hb. reflexivity.
  - unfold head_Before. rewrite Hb. reflexivity.
  - unfold mk_Before. rewrite Hb. reflexivity.
  - unfold rm_Before. rewrite Hb. reflexivity.
  - unfold load_Before. rewrite Hb. reflexivity.
Qed.

(** [ls] with nothing passed and an empty environment. *)
Lemma bucket_missing_rejected_witness :
  validate quietWorld ls_Before
    (NewContext [BucketFlag; ObjectPrefixFlag "2026/10/31"] [] [] []) =
  Rejected "bucket must be specified." 1.
Proof.
  exact (bucket_missing_rejected "2026/10/31" "ls"
           (nth 1 (Commands "2026/10/31")
              (mkCommand "" "" cmd.Ls "" [] ls_Before))
           [] [] [] quietWorld eq_refl eq_refl eq_refl).
Defined.

(** ** The order of the checks *)

(** The precondition of each command against its row of the table. *)

Lemma query_Before_table (w : World) (cx : Context) :
  exec w (query_Before cx) =
  exec w (SpecTable.evaluate (SpecTable.required "query") cx).
Proof.
  unfold query_Before, ctx.NArg.
  cbn [SpecTable.required String.eqb Ascii.eqb Bool.eqb
         SpecTable.evaluate SpecTable.check].
  destruct (args cx); cbn [length Nat.eqb Nat.leb]; [reflexivity |].
  destruct (String.eqb (ctx.String cx "bucket") ""); reflexivity.
Qed.

Lemma ls_Before_table (w : World) (cx : Context) :
  exec w (ls_Before cx) =
  exec w (SpecTable.evaluate (SpecTable.required "ls") cx).
Proof.
  unfold ls_Before.
  cbn [SpecTable.required String.eqb Ascii.eqb Bool.eqb
         SpecTable.evaluate SpecTable.check].
  destruct (String.eqb (ctx.String cx "bucket") ""); reflexivity.
Qed.

Lemma head_Before_table (w : World) (cx : Context) :
  exec w (head_Before cx) =
  exec w (SpecTable.evaluate (SpecTable.required "head") cx).
Proof.
  unfold head_Before, ctx.NArg.
  cbn [SpecTable.required String.eqb Ascii.eqb Bool.eqb
         SpecTable.evaluate SpecTable.check].
  destruct (String.eqb (ctx.String cx "bucket") ""); [reflexivity |].
  destruct (args cx); cbn [length Nat.eqb Nat.leb]; [reflexivity |].
  destruct (Nat.eqb (length (strings.Split (ctx.First cx) ".")) 2);
    reflexivity.
Qed.

Lemma mk_Before_table (w : World) (cx : Context) :
  exec w (mk_Before cx) =
  exec w (SpecTable.evaluate (SpecTable.required "mk") cx).
Proof.
  unfold mk_Before, ctx.NArg.
  cbn [SpecTable.required String.eqb Ascii.eqb Bool.eqb
         SpecTable.evaluate SpecTable.check].
  destruct (String.eqb (ctx.String cx "bucket") ""); [reflexivity |].
  destruct (args cx); cbn [length Nat.eqb Nat.leb]; [reflexivity |].
  destruct (length (strings.Split (ctx.First cx) ".")) as [| [| n]];
    reflexivity.
Qed.

Lemma rm_Before_table (w : World) (cx : Context) :
  exec w (rm_Before cx) =
  exec w (SpecTable.evaluate (SpecTable.required "rm") cx).
Proof.
  unfold rm_Before, ctx.NArg.
  cbn [SpecTable.required String.eqb Ascii.eqb Bool.eqb
         SpecTable.evaluate SpecTable.check].
  destruct (String.eqb (ctx.String cx "bucket") ""); [reflexivity |].
  destruct (args cx); cbn [length Nat.eqb Nat.leb]; [reflexivity |].
  destruct (ctx.Bool cx "force"); [reflexivity |].
  cbn. destruct (prompt_Ask w _) as [[|] e]; reflexivity.
Qed.

Lemma load_Before_table (w : World) (cx : Context) :
  exec w (load_Before cx) =
  exec w (SpecTable.evaluate (SpecTable.required "load") cx).
Proof.
  unfold load_Before.
  cbn [SpecTable.required String.eqb Ascii.eqb Bool.eqb
         SpecTable.evaluate SpecTable.check].
  destruct (String.eqb (ctx.String cx "bucket") ""); [reflexivity |].
  destruct (strings.HasPrefix (ctx.Get cx 1) "s3://"); [| reflexivity].
  destruct (String.eqb (ctx.String cx "source_format")
              "NEWLINE_DELIMITED_JSON"); reflexivity.
Qed.

(** The order of a row can be told from the outcomes: on an invocation
    with neither a bucket nor an argument the two orders of the rules of
    [query] give different messages. *)
Lemma query_order_is_observable :
  exec quietWorld
    (SpecTable.evaluate
       [SpecTable.HasArgument "QUERY must be specified.";
        SpecTable.BucketFlagSet] (mkContext [] [])) <>
  exec quietWorld
    (SpecTable.evaluate
       [SpecTable.BucketFlagSet;
        SpecTable.HasArgument "QUERY must be specified."] (mkContext [] [])).
Proof. cbn. discriminate. Qed.

(** C2: the precondition of every command of the table is the evaluation,
    in the order of the table of spec 4.3 and ending at the first rule that
    fails, of the rules of its row: in every world the two return the same
    error after the same events.  In particular [query] without a
    positional argument is rejected with [QUERY must be specified.]
    whatever the bucket is, and every other command with an empty bucket is
    rejected with [bucket must be specified.] before anything else is
    looked at or asked. *)
Theorem preconditions_follow_table
  (today name : string) (c : Command) :
  lookupCommand today name = Some c ->
  (forall (w : World) (cx : Context),
     exec w (Before c cx) =
     exec w (SpecTable.evaluate (SpecTable.required name) cx)) /\
  (name = "query" ->
   forall (w : World) (cx : Context),
     args cx = [] ->
     exec w (Before c cx) = (ExitError "QUERY must be specified." 1, [])) /\
  (name <> "query" ->
   forall (w : World) (cx : Context),
     ctx.String cx "bucket" = "" ->
     exec w (Before c cx) = (ExitError "bucket must be specified." 1, [])).
Proof.
  intro Hc.
  destruct (lookupCommand_cases _ _ _ Hc) as [_ [_ [rest [_ Hcases]]]].
  destruct Hcases as [[-> [-> _]] | [[-> [-> _]] | [[-> [-> _]] |
                     [[-> [-> _]] | [[-> [-> _]] | [-> [-> _]]]]]]];
    (split; [| split]);
    auto using query_Before_table, ls_Before_table, head_Before_table,
      mk_Before_table, rm_Before_table, load_Before_table;
    try (intro N; discriminate N);
    try (intro N; exfalso; apply N; reflexivity);
    intros _ w cx H.
  - unfold query_Before, ctx.NArg. rewrite H. reflexivity.
  - unfold ls_Before. rewrite (bucket_unset_eqb _ H). reflexivity.
  - unfold head_Before. rewrite (bucket_unset_eqb _ H). reflexivity.
  - unfold mk_Before. rewrite (bucket_unset_eqb _ H). reflexivity.
  - unfold rm_Before. rewrite (bucket_unset_eqb _ H). reflexivity.
  - unfold load_Before. rewrite (bucket_unset_eqb _ H). reflexivity.
Qed.

(** [query] with nothing at all, and [head] with an argument but no
    bucket. *)
Lemma preconditions_follow_table_witness :
  exec quietWorld (query_Before (mkContext [] [])) =
    (ExitError "QUERY must be specified." 1, []) /\
  exec quietWorld (head_Before (mkContext [] ["foo.bar"])) =
    (ExitError "bucket must be specified." 1, []).
Proof.
  split.
  - exact (proj1 (proj2
             (preconditions_follow_table "2026/10/31" "query"
                (nth 0 (Commands "2026/10/31")
                   (mkCommand "" "" cmd.Ls "" [] ls_Before)) eq_refl))
             eq_refl quietWorld (mkContext [] []) eq_refl).
  - refine (proj2 (proj2
             (preconditions_follow_table "2026/10/31" "head"
                (nth 2 (Commands "2026/10/31")
                   (mkCommand "" "" cmd.Ls "" [] ls_Before)) eq_refl))
             _ quietWorld (mkContext [] ["foo.bar"]) eq_refl).
    discriminate.
Defined.

(** ** What each precondition answers *)

Lemma head_validate (w : World) (c : Context) (a : string)
  (rest : list string) :
  bucketSet c -> args c = a :: rest ->
  validate w head_Before c =
    if Nat.eqb (length (strings.Split a ".")) 2 then Accepted
    else Rejected "[DATABASE].[TABLE] must contain `.`." 1.
Proof.
  intros Hb Ha. unfold validate, head_Before, ctx.NArg, ctx.First, ctx.Get.
  rewrite (bucketSet_eqb _ Hb), Ha. cbn [length Nat.eqb nth].
  destruct (Nat.eqb (length (strings.Split a ".")) 2); reflexivity.
Qed.

Lemma mk_validate (w : World) (c : Context) (a : string)
  (rest : list string) :
  bucketSet c -> args c = a :: rest ->
  validate w mk_Before c =
    if Nat.leb 2 (length (strings.Split a ".")) then
      Rejected "If you want to create table, use `load` subcommand." 1
    else Accepted.
Proof.
  intros Hb Ha. unfold validate, mk_Before, ctx.NArg, ctx.First, ctx.Get.
  rewrite (bucketSet_eqb _ Hb), Ha. cbn [length Nat.eqb nth].
  destruct (Nat.leb 2 (length (strings.Split a "."))); reflexivity.
Qed.

Lemma load_validate (w : World) (c : Context) :
  bucketSet c ->
  validate w load_Before c =
    if negb (strings.HasPrefix (ctx.Get c 1) "s3://") then
      Rejected "`SOURCE` must start with 's3://'" 1
    else if negb (String.eqb (ctx.String c "source_format")
                    "NEWLINE_DELIMITED_JSON") then
      Rejected "Now aq support only NEWLINE_DELIMITED_JSON." 1
    else Accepted.
Proof.
  intro Hb. unfold validate, load_Before. rewrite (bucketSet_eqb _ Hb).
  destruct (strings.HasPrefix (ctx.Get c 1) "s3://"); [| reflexivity].
  destruct (String.eqb (ctx.String c "source_format")
              "NEWLINE_DELIMITED_JSON"); reflexivity.
Qed.

Lemma rm_exec (w : World) (c : Context) :
  bucketSet c -> args c <> [] ->
  exec w (rm_Before c) =
    if ctx.Bool c "force" then (nil, [])
    else
      (if fst (prompt_Ask w ("Would you remove " ++ ctx.First c)) then nil
       else ExitError "Canceled." 1,
       [Asked ("Would you remove " ++ ctx.First c)]).
Proof.
  intros Hb Ha. unfold rm_Before, ctx.NArg.
  rewrite (bucketSet_eqb _ Hb).
  destruct (args c) as [| a rest] eqn:E; [contradiction |].
  cbn [length Nat.eqb].
  destruct (ctx.Bool c "force"); [reflexivity |].
  cbn. destruct (prompt_Ask w _) as [[|] e]; reflexivity.
Qed.

(** ** Confirmation before [rm] *)

(** C3: for [rm] with the bucket flag set and at least one positional
    argument: with the force flag set nothing is asked and the precondition
    accepts, in every world; with the force flag not set the prompt is
    asked once, and when the read returns [false] or an error the outcome
    is Rejected with exit code 1 and the message [Canceled.]  The code
    tests the answer of the read and drops its error, so the case of the
    error is stated for a read that answers [false] when it fails
    ([failsWithFalse]); the two other cases hold for every read. *)
Theorem rm_confirmation (w : World) (c : Context) :
  bucketSet c -> args c <> [] ->
  let question := ("Would you remove " ++ ctx.First c)%string in
  (ctx.Bool c "force" = true ->
   exec w (rm_Before c) = (nil, []) /\
   validate w rm_Before c = Accepted /\ prompts w rm_Before c = []) /\
  (ctx.Bool c "force" = false ->
   fst (prompt_Ask w question) = false ->
   exec w (rm_Before c) = (ExitError "Canceled." 1, [Asked question]) /\
   validate w rm_Before c = Rejected "Canceled." 1) /\
  (ctx.Bool c "force" = false ->
   failsWithFalse (prompt_Ask w question) ->
   fst (prompt_Ask w question) = false \/
   snd (prompt_Ask w question) <> nil ->
   exec w (rm_Before c) = (ExitError "Canceled." 1, [Asked question]) /\
   validate w rm_Before c = Rejected "Canceled." 1).
Proof.
  intros Hb Ha question. subst question.
  unfold validate, prompts, failsWithFalse. rewrite (rm_exec w c Hb Ha).
  split; [| split].
  - intros ->. cbn. auto.
  - intros -> ->. cbn. auto.
  - intros -> Hconv [Hf | He].
    + rewrite Hf. cbn. auto.
    + rewrite (Hconv He). cbn. auto.
Qed.

(** [rm logs] with [--force] in a world whose prompt would decline,
    without [--force] in the same world, and without [--force] on a
    closed terminal. *)
Lemma rm_confirmation_witness :
  validate quietWorld rm_Before
    (mkContext [("bucket", "results"); ("force", "true")] ["logs"])
    = Accepted /\
  validate quietWorld rm_Before (mkContext [("bucket", "results")] ["logs"])
    = Rejected "Canceled." 1 /\
  exec closedTerminal
    (rm_Before (mkContext [("bucket", "results")] ["logs"]))
    = (ExitError "Canceled." 1, [Asked "Would you remove logs"]).
Proof.
  split; [| split].
  - refine (proj1 (proj2 (proj1
             (rm_confirmation quietWorld
                (mkContext [("bucket", "results"); ("force", "true")]
                   ["logs"]) _ _) eq_refl)));
      [unfold bucketSet; cbn |]; discriminate.
  - refine (proj2 (proj1 (proj2
             (rm_confirmation quietWorld
                (mkContext [("bucket", "results")] ["logs"]) _ _))
             eq_refl eq_refl));
      [unfold bucketSet; cbn |]; discriminate.
  - refine (proj1 (proj2 (proj2
             (rm_confirmation closedTerminal
                (mkContext [("bucket", "results")] ["logs"]) _ _))
             eq_refl (fun _ => eq_refl) (or_intror _)));
      [unfold bucketSet; cbn | | cbn]; discriminate.
Defined.

(** ** [head]: a database and a table *)

(** Without a positional argument [head] stops at its second check. *)
Lemma head_without_argument (w : World) (c : Context) :
  bucketSet c -> args c = [] ->
  validate w head_Before c =
    Rejected "DATABASE and TABLE must be specified." 1.
Proof.
  intros Hb Ha. unfold validate, head_Before, ctx.NArg.
  rewrite (bucketSet_eqb _ Hb), Ha. reflexivity.
Qed.

(** C4: for [head] with the bucket flag set and a first positional
    argument [a]: when [a], split on [.], does not have exactly 2 parts (as
    [foo] and [foo.bar.baz] do not) the outcome is Rejected with exit code 1
    and the message that asks for the [.]; when it has exactly 2 parts (as
    [foo.bar] has) validation passes. *)
Theorem head_two_parts (w : World) (c : Context) (a : string)
  (rest : list string) :
  bucketSet c -> args c = a :: rest ->
  (length (strings.Split a ".") <> 2 ->
   validate w head_Before c =
     Rejected "[DATABASE].[TABLE] must contain `.`." 1) /\
  (length (strings.Split a ".") = 2 -> validate w head_Before c = Accepted) /\
  (In a ["foo"; "foo.bar.baz"] ->
   validate w head_Before c =
     Rejected "[DATABASE].[TABLE] must contain `.`." 1) /\
  (a = "foo.bar" -> validate w head_Before c = Accepted) /\
  strings.Contains "[DATABASE].[TABLE] must contain `.`." "`.`" = true.
Proof.
  intros Hb Ha. rewrite (head_validate w c a rest Hb Ha).
  repeat split.
  - intro N. apply Nat.eqb_neq in N. rewrite N. reflexivity.
  - intros ->. reflexivity.
  - intros [<- | [<- | []]]; reflexivity.
  - intros ->. reflexivity.
Qed.

(** [head foo], [head foo.bar.baz] and [head foo.bar] with a bucket. *)
Lemma head_two_parts_witness :
  validate quietWorld head_Before (mkContext [("bucket", "results")] ["foo"])
    = Rejected "[DATABASE].[TABLE] must contain `.`." 1 /\
  validate quietWorld head_Before
    (mkContext [("bucket", "results")] ["foo.bar.baz"])
    = Rejected "[DATABASE].[TABLE] must contain `.`." 1 /\
  validate quietWorld head_Before
    (mkContext [("bucket", "results")] ["foo.bar"]) = Accepted.
Proof.
  assert (B : forall l, bucketSet (mkContext [("bucket", "results")] l))
    by (intro l; unfold bucketSet; cbn; discriminate).
  split; [| split].
  - apply (proj1 (head_two_parts quietWorld _ "foo" [] (B _) eq_refl)).
    cbn. discriminate.
  - apply (proj1 (head_two_parts quietWorld _ "foo.bar.baz" [] (B _) eq_refl)).
    cbn. discriminate.
  - apply (proj1 (proj2
             (head_two_parts quietWorld _ "foo.bar" [] (B _) eq_refl))).
    reflexivity.
Defined.

(** C10: [head] only counts the parts: with the bucket flag set and a first
    positional argument [a], validation passes exactly when [a] has one
    dot; the parts may be empty, so [.], [foo.] and [.bar] pass, as does
    every [db.tbl] whose [db] and [tbl] have no dot, empty or not. *)
Theorem head_empty_parts_pass (w : World) (c : Context) (a : string)
  (rest : list string) :
  bucketSet c -> args c = a :: rest ->
  (validate w head_Before c = Accepted <-> count_byte "." a = 1) /\
  (In a ["."; "foo."; ".bar"] -> validate w head_Before c = Accepted) /\
  (forall db tbl : string,
     count_byte "." db = 0 -> count_byte "." tbl = 0 ->
     a = (db ++ "." ++ tbl)%string ->
     strings.Split a "." = [db; tbl] /\ validate w head_Before c = Accepted).
Proof.
  intros Hb Ha. rewrite (head_validate w c a rest Hb Ha).
  split; [| split].
  - rewrite length_Split_dot.
    destruct (count_byte "." a) as [| [| n]]; cbn; split; intro H;
      try reflexivity; discriminate H.
  - intros [<- | [<- | [<- | []]]]; reflexivity.
  - intros db tbl Hdb Htbl ->.
    rewrite (Split_database_table db tbl Hdb Htbl). split; reflexivity.
Qed.

(** [head .], [head foo.] and [head .bar] with a bucket. *)
Lemma head_empty_parts_pass_witness :
  validate quietWorld head_Before (mkContext [("bucket", "results")] ["."])
    = Accepted /\
  validate quietWorld head_Before (mkContext [("bucket", "results")] ["foo."])
    = Accepted /\
  validate quietWorld head_Before (mkContext [("bucket", "results")] [".bar"])
    = Accepted.
Proof.
  assert (B : forall l, bucketSet (mkContext [("bucket", "results")] l))
    by (intro l; unfold bucketSet; cbn; discriminate).
  split; [| split].
  - apply (proj1 (proj2
             (head_empty_parts_pass quietWorld _ "." [] (B _) eq_refl))).
    cbn. tauto.
  - apply (proj1 (proj2
             (head_empty_parts_pass quietWorld _ "foo." [] (B _) eq_refl))).
    cbn. tauto.
  - apply (proj2 (proj2
             (head_empty_parts_pass quietWorld _ ".bar" [] (B _) eq_refl))
             "" "bar"); reflexivity.
Defined.

(** ** [mk]: a database, not a table *)

(** C5: for [mk] with the bucket flag set and a first positional argument
    [a]: when [a], split on [.], has 2 or more parts (as [db.table] has)
    the outcome is Rejected with exit code 1 and the message that sends the
    user to the [load] subcommand; when it has fewer than 2 parts (as [db]
    has) validation passes. *)
Theorem mk_rejects_tables (w : World) (c : Context) (a : string)
  (rest : list string) :
  bucketSet c -> args c = a :: rest ->
  (2 <= length (strings.Split a ".") ->
   validate w mk_Before c =
     Rejected "If you want to create table, use `load` subcommand." 1) /\
  (length (strings.Split a ".") < 2 -> validate w mk_Before c = Accepted) /\
  (a = "db.table" ->
   validate w mk_Before c =
     Rejected "If you want to create table, use `load` subcommand." 1) /\
  (a = "db" -> validate w mk_Before c = Accepted) /\
  strings.Contains "If you want to create table, use `load` subcommand."
    "use `load` subcommand" = true.
Proof.
  intros Hb Ha. rewrite (mk_validate w c a rest Hb Ha).
  repeat split.
  - intro H. apply Nat.leb_le in H. rewrite H. reflexivity.
  - intro H. apply Nat.leb_gt in H. rewrite H. reflexivity.
  - intros ->. reflexivity.
  - intros ->. reflexivity.
Qed.

(** [mk db.table] and [mk db] with a bucket. *)
Lemma mk_rejects_tables_witness :
  validate quietWorld mk_Before
    (mkContext [("bucket", "results")] ["db.table"])
    = Rejected "If you want to create table, use `load` subcommand." 1 /\
  validate quietWorld mk_Before (mkContext [("bucket", "results")] ["db"])
    = Accepted.
Proof.
  assert (B : forall l, bucketSet (mkContext [("bucket", "results")] l))
    by (intro l; unfold bucketSet; cbn; discriminate).
  split.
  - apply (proj1 (mk_rejects_tables quietWorld _ "db.table" [] (B _) eq_refl)).
    cbn. lia.
  - apply (proj1 (proj2
             (mk_rejects_tables quietWorld _ "db" [] (B _) eq_refl))).
    cbn. lia.
Defined.

(** ** [load]: the source and its format *)

(** The [load] command of the table and the flags its precondition
    reads. *)
Lemma load_command (today : string) (c : Command) :
  lookupCommand today "load" = Some c ->
  Before c = load_Before /\
  forall (given environ : list (string * string))
         (positional : list string),
    let cx := NewContext (Flags c) given environ positional in
    args cx = positional /\
    ctx.String cx "source_format" =
      match lookupAny ["source_format"; "s"] given with
      | Some v => v
      | None => "NEWLINE_DELIMITED_JSON"
      end.
Proof.
  unfold lookupCommand, Commands.
  cbn [find Name String.eqb Ascii.eqb Bool.eqb]. intro H.
  injection H as <-. split; [reflexivity |].
  intros given environ positional. split; reflexivity.
Qed.

(** C6: for [load] with the bucket flag set: a second positional argument
    that does not start with [s3://] is Rejected with exit code 1 and the
    message that names the prefix; otherwise a [source_format] other than
    [NEWLINE_DELIMITED_JSON] is Rejected with exit code 1 and the message
    that names the only supported format; with the prefix and the
    [source_format] flag not passed, so at its default, validation
    passes. *)
Theorem load_source_and_format
  (today : string) (c : Command)
  (given environ : list (string * string)) (positional : list string)
  (w : World) :
  lookupCommand today "load" = Some c ->
  let cx := NewContext (Flags c) given environ positional in
  bucketSet cx ->
  (strings.HasPrefix (nth 1 positional "") "s3://" = false ->
   validate w (Before c) cx = Rejected "`SOURCE` must start with 's3://'" 1) /\
  (strings.HasPrefix (nth 1 positional "") "s3://" = true ->
   ctx.String cx "source_format" <> "NEWLINE_DELIMITED_JSON" ->
   validate w (Before c) cx =
     Rejected "Now aq support only NEWLINE_DELIMITED_JSON." 1) /\
  (strings.HasPrefix (nth 1 positional "") "s3://" = true ->
   lookupAny ["source_format"; "s"] given = None ->
   validate w (Before c) cx = Accepted) /\
  strings.Contains "`SOURCE` must start with 's3://'" "s3://" = true.
Proof.
  intros Hc cx Hb.
  destruct (load_command today c Hc) as [-> Hcx].
  destruct (Hcx given environ positional) as [Ha Hs]. fold cx in Ha, Hs.
  rewrite (load_validate w cx Hb). unfold ctx.Get. rewrite Ha.
  split; [| split; [| split]].
  - intros ->. reflexivity.
  - intros -> N. apply String.eqb_neq in N. rewrite N. reflexivity.
  - intros -> D. rewrite Hs, D. reflexivity.
  - reflexivity.
Qed.

(** [load db.table foo SCHEMA], [load db.table s3://bucket/key SCHEMA
    --source_format=CSV] and [load db.table s3://bucket/key SCHEMA], each
    with [--bucket=results]. *)
Lemma load_source_and_format_witness :
  let loadCommand :=
    nth 5 (Commands "2026/10/31") (mkCommand "" "" cmd.Ls "" [] ls_Before) in
  validate quietWorld load_Before
    (NewContext (Flags loadCommand) [("bucket", "results")] []
       ["db.table"; "foo"; "SCHEMA"])
    = Rejected "`SOURCE` must start with 's3://'" 1 /\
  validate quietWorld load_Before
    (NewContext (Flags loadCommand)
       [("bucket", "results"); ("source_format", "CSV")] []
       ["db.table"; "s3://bucket/key"; "SCHEMA"])
    = Rejected "Now aq support only NEWLINE_DELIMITED_JSON." 1 /\
  validate quietWorld load_Before
    (NewContext (Flags loadCommand) [("bucket", "results")] []
       ["db.table"; "s3://bucket/key"; "SCHEMA"])
    = Accepted.
Proof.
  intro loadCommand.
  assert (L : lookupCommand "2026/10/31" "load" = Some loadCommand)
    by reflexivity.
  split; [| split].
  - refine (proj1
              (load_source_and_format "2026/10/31" loadCommand
                 [("bucket", "results")] [] ["db.table"; "foo"; "SCHEMA"]
                 quietWorld L _) eq_refl).
    unfold bucketSet. cbn. discriminate.
  - refine (proj1 (proj2
              (load_source_and_format "2026/10/31" loadCommand
                 [("bucket", "results"); ("source_format", "CSV")] []
                 ["db.table"; "s3://bucket/key"; "SCHEMA"]
                 quietWorld L _)) eq_refl _);
      [unfold bucketSet |]; cbn; discriminate.
  - refine (proj1 (proj2 (proj2
              (load_source_and_format "2026/10/31" loadCommand
                 [("bucket", "results")] []
                 ["db.table"; "s3://bucket/key"; "SCHEMA"]
                 quietWorld L _))) eq_refl eq_refl).
    unfold bucketSet. cbn. discriminate.
Defined.

(** C9: the precondition of [load] looks at the flags and at the second
    positional argument only.  With the bucket flag set: with fewer than
    two positional arguments the second one reads as the empty string and
    the outcome is Rejected with exit code 1 and the message
    [`SOURCE` must start with 's3://']; the outcome is the same for every
    invocation with the same flags and the same second argument, so the
    first argument can be replaced by any other; and with the prefix and
    the supported format validation passes, whatever the first argument
    is. *)
Theorem load_ignores_count_and_first (w : World) (c : Context) :
  bucketSet c ->
  (length (args c) < 2 ->
   ctx.Get c 1 = "" /\
   validate w load_Before c = Rejected "`SOURCE` must start with 's3://'" 1) /\
  (forall c' : Context,
     flagSet c' = flagSet c -> ctx.Get c' 1 = ctx.Get c 1 ->
     validate w load_Before c' = validate w load_Before c) /\
  (forall (a a' : string) (rest : list string),
     args c = a :: rest ->
     validate w load_Before (mkContext (flagSet c) (a' :: rest)) =
     validate w load_Before c) /\
  (strings.HasPrefix (ctx.Get c 1) "s3://" = true ->
   ctx.String c "source_format" = "NEWLINE_DELIMITED_JSON" ->
   validate w load_Before c = Accepted).
Proof.
  intro Hb.
  assert (Same : forall c' : Context,
             flagSet c' = flagSet c -> ctx.Get c' 1 = ctx.Get c 1 ->
             validate w load_Before c' = validate w load_Before c).
  { intros c' Hf Hg. unfold validate, load_Before, ctx.String.
    rewrite Hf, Hg. reflexivity. }
  split; [| split; [| split]].
  - intro Hlen.
    assert (G : ctx.Get c 1 = "").
    { unfold ctx.Get. apply nth_overflow. lia. }
    split; [exact G |].
    rewrite (load_validate w c Hb), G. reflexivity.
  - exact Same.
  - intros a a' rest Ha. apply Same; [reflexivity |].
    unfold ctx.Get. rewrite Ha. reflexivity.
  - intros Hp Hs. rewrite (load_validate w c Hb), Hp, Hs. reflexivity.
Qed.

(** [load] with a bucket and no positional argument at all, and
    [load nodot s3://bucket/key] with the default format. *)
Lemma load_ignores_count_and_first_witness :
  validate quietWorld load_Before
    (mkContext
       [("bucket", "results"); ("source_format", "NEWLINE_DELIMITED_JSON")]
       [])
    = Rejected "`SOURCE` must start with 's3://'" 1 /\
  validate quietWorld load_Before
    (mkContext
       [("bucket", "results"); ("source_format", "NEWLINE_DELIMITED_JSON")]
       ["nodot"; "s3://bucket/key"])
    = Accepted.
Proof.
  assert (B : forall l,
             bucketSet
               (mkContext
                  [("bucket", "results");
                   ("source_format", "NEWLINE_DELIMITED_JSON")] l))
    by (intro l; unfold bucketSet; cbn; discriminate).
  split.
  - apply (proj1 (load_ignores_count_and_first quietWorld _ (B []))).
    cbn. lia.
  - apply (proj2 (proj2 (proj2
             (load_ignores_count_and_first quietWorld _
                (B ["nodot"; "s3://bucket/key"]))))); reflexivity.
Defined.

(** ** No command *)

(** The names the default action collects are the names of the table, in
    its order. *)
Lemma collected_names (l : list Command) (acc : list string) :
  fold_left (fun acc subcmd => acc ++ [Name subcmd]) l acc =
  acc ++ map Name l.
Proof.
  revert acc. induction l as [| c l IH]; intro acc; cbn [fold_left map].
  - now rewrite app_nil_r.
  - rewrite IH, <- app_assoc. reflexivity.
Qed.

(** C7: started with no token after the program name, or with a first
    token that is the name of no command of the table, [Run] is the
    program that writes the line of all command names to the error stream
    and returns 0: it asks nothing, calls no action handler, and neither
    the flags, the positional arguments nor the environment, which are all
    a precondition could look at, have any part in it. *)
Theorem no_command_lists_subcommands
  (today : string) (environ : list (string * string)) (inv : Invocation) :
  subcommand inv = None \/
  (exists tok : string,
     subcommand inv = Some tok /\ ~ In tok (map Name (Commands today))) ->
  Run today environ inv =
    Stderr ("Subcommands: " ++
            strings.Join (map Name (Commands today)) ", " ++ LF) (Ret 0%Z) /\
  forall w : World,
    exec w (Run today environ inv) =
      (0%Z, [Printed ("Subcommands: query, ls, head, mk, rm, load" ++ LF)]).
Proof.
  intro H.
  assert (R : appRun today environ inv =
              (defaultAction today ;; ret (Returned nil))).
  { unfold appRun. destruct H as [-> | [tok [-> Hn]]]; [reflexivity |].
    rewrite (lookupCommand_None today tok Hn). reflexivity. }
  unfold Run. rewrite R. unfold defaultAction.
  rewrite collected_names. split; [reflexivity |].
  intro w. reflexivity.
Qed.

(** [aq] alone, and [aq frobnicate]. *)
Lemma no_command_lists_subcommands_witness :
  exec quietWorld (Run "2026/10/31" [] (mkInvocation "aq" None [] [])) =
    (0%Z, [Printed ("Subcommands: query, ls, head, mk, rm, load" ++ LF)]) /\
  exec quietWorld
    (Run "2026/10/31" []
       (mkInvocation "aq" (Some "frobnicate") [("bucket", "results")]
          ["x"])) =
    (0%Z, [Printed ("Subcommands: query, ls, head, mk, rm, load" ++ LF)]).
Proof.
  split.
  - apply (proj2 (no_command_lists_subcommands "2026/10/31" []
                    (mkInvocation "aq" None [] []) (or_introl eq_refl))).
  - refine (proj2 (no_command_lists_subcommands "2026/10/31" []
                     (mkInvocation "aq" (Some "frobnicate")
                        [("bucket", "results")] ["x"])
                     (or_intror (ex_intro _ "frobnicate" (conj eq_refl _))))
              quietWorld).
    cbn. intros [H | [H | [H | [H | [H | [H | []]]]]]]; discriminate H.
Defined.

(** ** The exit code *)

(** C8: [msg] maps no error to exit code 0 and writes nothing; it maps an
    error to exit code 1 and writes the program name, a colon and the
    message of the error to the error stream.  So for a command whose
    precondition accepts, [Run] calls the action handler of the command
    once and exits with 0 when it answers Success, and with 1 after the
    line [program: message] when it answers Failure with [message]. *)
Theorem msg_maps_result_to_exit_code
  (today : string) (environ : list (string * string)) (inv : Invocation)
  (tok : string) (c : Command) (w : World) :
  subcommand inv = Some tok ->
  lookupCommand today tok = Some c ->
  let cx := NewContext (Flags c) (given inv) environ (positional inv) in
  fst (exec w (Before c cx)) = nil ->
  (forall (arg0 : string) (err : error),
     exec w (msg arg0 err) =
       match err with
       | nil => (0%Z, [])
       | _ => (1%Z, [Printed (arg0 ++ ": " ++ Error err ++ LF)])
       end) /\
  exists handler : string,
    Action c = cmd.handler handler /\
    exec w (Run today environ inv) =
      match cmd_handler w handler cx with
      | Success =>
          (0%Z, snd (exec w (Before c cx)) ++ [Called handler cx])
      | Failure message =>
          (1%Z,
           snd (exec w (Before c cx)) ++
           [Called handler cx;
            Printed (program inv ++ ": " ++ message ++ LF)])
      end.
Proof.
  intros Hs Hc cx Hok.
  split.
  { intros arg0 [| m | m code]; reflexivity. }
  destruct (lookupCommand_cases _ _ _ Hc) as [_ [_ [rest [_ Hcases]]]].
  assert (HA : exists handler, Action c = cmd.handler handler).
  { destruct Hcases as [[_ [_ A]] | [[_ [_ A]] | [[_ [_ A]] |
                       [[_ [_ A]] | [[_ [_ A]] | [_ [_ A]]]]]]];
      rewrite A; eexists; reflexivity. }
  destruct HA as [handler HA]. exists handler. split; [exact HA |].
  unfold Run, appRun. rewrite Hs, Hc. fold cx. unfold commandRun.
  rewrite !exec_bind. rewrite Hok. rewrite HA.
  cbn [fst snd]. unfold cmd.handler. rewrite exec_bind. cbn [exec fst snd].
  destruct (cmd_handler w handler cx) as [| message]; cbn;
    rewrite ?app_nil_r, <- ?app_assoc; reflexivity.
Qed.

(** [aq ls --bucket=results] with a handler that succeeds, and with one
    that fails. *)
Lemma msg_maps_result_to_exit_code_witness :
  fst (exec quietWorld
         (Run "2026/10/31" []
            (mkInvocation "aq" (Some "ls") [("bucket", "results")] []))) = 0%Z
  /\
  exists cx : Context,
    exec (mkWorld (fun _ => (false, nil))
            (fun _ _ => Failure "no such database"))
      (Run "2026/10/31" []
         (mkInvocation "aq" (Some "ls") [("bucket", "results")] [])) =
    (1%Z, [Called "Ls" cx; Printed ("aq: no such database" ++ LF)]).
Proof.
  split.
  - destruct (proj2
                (msg_maps_result_to_exit_code "2026/10/31" []
                   (mkInvocation "aq" (Some "ls") [("bucket", "results")] [])
                   "ls"
                   (nth 1 (Commands "2026/10/31")
                      (mkCommand "" "" cmd.Ls "" [] ls_Before))
                   quietWorld eq_refl eq_refl eq_refl))
      as [handler [_ E]].
    rewrite E. reflexivity.
  - eexists.
    destruct (proj2
                (msg_maps_result_to_exit_code "2026/10/31" []
                   (mkInvocation "aq" (Some "ls") [("bucket", "results")] [])
                   "ls"
                   (nth 1 (Commands "2026/10/31")
                      (mkCommand "" "" cmd.Ls "" [] ls_Before))
                   (mkWorld (fun _ => (false, nil))
                      (fun _ _ => Failure "no such database"))
                   eq_refl eq_refl eq_refl))
      as [handler [A E]].
    rewrite E.
    pose proof (f_equal (fun act => act (mkContext [] [])) A) as N.
    cbv beta iota delta [Action nth Commands cmd.Ls cmd.handler] in N.
    injection N as <-. reflexivity.
Defined.

(** * Further properties of the command table and its preconditions *)

(** ** Splitting and joining *)

Lemma genSplit_not_empty (sep s : string) (skip : nat) (cur : string) :
  strings.genSplit sep s skip cur <> [].
Proof.
  revert skip cur. induction s as [| ch s IH]; intros skip cur.
  - discriminate.
  - cbn [strings.genSplit]. destruct skip as [| k]; [| apply IH].
    destruct (String.prefix sep (String ch s)); [discriminate | apply IH].
Qed.

(** The bytes of a recognised separator are dropped. *)
Lemma genSplit_skip (sep t s cur : string) :
  strings.genSplit sep (t ++ s) (String.length t) cur =
  strings.genSplit sep s 0 cur.
Proof.
  induction t as [| ch t IH]; [reflexivity | exact IH].
Qed.

Lemma prefix_append (p s : string) :
  String.prefix p s = true <-> exists r : string, s = (p ++ r)%string.
Proof.
  revert s. induction p as [| d p IH]; intro s.
  - rewrite prefix_empty. split; [intros _; exists s; reflexivity | trivial].
  - destruct s as [| ch s]; cbn [String.prefix].
    + split; [discriminate | intros [r H]; discriminate H].
    + destruct (ascii_dec d ch) as [<- | N].
      * rewrite IH. split; intros [r H]; exists r.
        -- cbn. now rewrite H.
        -- cbn in H. now injection H.
      * split; [discriminate |].
        intros [r H]. cbn in H. injection H as E _. congruence.
Qed.

Lemma length_string_append (a b : string) :
  String.length (a ++ b) = String.length a + String.length b.
Proof.
  induction a as [| x a IH]; [reflexivity | cbn; now rewrite IH].
Qed.

Lemma concat_cons (sep x : string) (l : list string) :
  l <> [] ->
  String.concat sep (x :: l) = (x ++ sep ++ String.concat sep l)%string.
Proof. destruct l; [contradiction | reflexivity]. Qed.

Lemma genSplit_concat (sep : string) (n : nat) :
  sep <> "" ->
  forall s cur : string,
    String.length s <= n ->
    String.concat sep (strings.genSplit sep s 0 cur) = (cur ++ s)%string.
Proof.
  intro Hsep. induction n as [| n IH]; intros s cur Hlen.
  - destruct s; [| cbn in Hlen; lia]. cbn. now rewrite append_empty_r.
  - destruct s as [| ch s]; [cbn; now rewrite append_empty_r |].
    cbn [strings.genSplit].
    destruct (String.prefix sep (String ch s)) eqn:P.
    + apply prefix_append in P. destruct P as [r Hr].
      destruct sep as [| d sep']; [contradiction |].
      cbn in Hr. injection Hr as <- ->.
      cbn [String.length]. rewrite Nat.sub_1_r. cbn [Nat.pred].
      rewrite genSplit_skip.
      rewrite concat_cons by apply genSplit_not_empty.
      rewrite IH.
      * reflexivity.
      * cbn [String.length] in Hlen. rewrite length_string_append in Hlen.
        lia.
    + rewrite IH by (cbn in Hlen; lia). apply append_snoc.
Qed.

Lemma count_byte_append (ch : ascii) (a b : string) :
  count_byte ch (a ++ b) = count_byte ch a + count_byte ch b.
Proof.
  induction a as [| x a IH]; [reflexivity |].
  cbn [append count_byte]. rewrite IH. lia.
Qed.

Lemma genSplit_dot_free (s cur : string) :
  count_byte "." cur = 0 ->
  Forall (fun piece => count_byte "." piece = 0)
    (strings.genSplit "." s 0 cur).
Proof.
  revert cur. induction s as [| ch s IH]; intros cur Hcur.
  - constructor; [exact Hcur | constructor].
  - rewrite genSplit_dot_step. destruct (Ascii.eqb ch ".") eqn:E.
    + constructor; [exact Hcur | apply IH; reflexivity].
    + apply IH. rewrite count_byte_append. cbn [count_byte].
      rewrite E. lia.
Qed.

(** X2: when [head] accepts, with the bucket flag set, a first argument
    [a], then [a] is [db.tbl] for the two pieces [db] and [tbl] that
    [strings.Split] returns, and neither piece has a dot. *)
Theorem head_accepted_shape (w : World) (c : Context) (a : string)
  (rest : list string) :
  bucketSet c -> args c = a :: rest ->
  validate w head_Before c = Accepted ->
  exists db tbl : string,
    strings.Split a "." = [db; tbl] /\
    a = (db ++ "." ++ tbl)%string /\
    count_byte "." db = 0 /\ count_byte "." tbl = 0.
Proof.
  intros Hb Ha Hv. rewrite (head_validate w c a rest Hb Ha) in Hv.
  destruct (Nat.eqb (length (strings.Split a ".")) 2) eqn:E;
    [| discriminate Hv].
  apply Nat.eqb_eq in E.
  pose proof (genSplit_concat "." (String.length a) ltac:(discriminate)
                a "" (le_n _)) as J.
  pose proof (genSplit_dot_free a "" eq_refl) as F.
  change (strings.genSplit "." a 0 "") with (strings.Split a ".") in J, F.
  destruct (strings.Split a ".") as [| db [| tbl [| x l]]];
    try discriminate E.
  exists db, tbl. cbn in J.
  inversion F as [| ? ? Fdb F']. inversion F' as [| ? ? Ftbl _].
  repeat split; [symmetry; exact J | exact Fdb | exact Ftbl].
Qed.

(** [head logs.access] with a bucket. *)
Lemma head_accepted_shape_witness :
  exists db tbl : string,
    strings.Split "logs.access" "." = [db; tbl] /\
    "logs.access" = (db ++ "." ++ tbl)%string /\
    count_byte "." db = 0 /\ count_byte "." tbl = 0.
Proof.
  apply (head_accepted_shape quietWorld
           (mkContext [("bucket", "results")] ["logs.access"])
           "logs.access" []).
  - unfold bucketSet. cbn. discriminate.
  - reflexivity.
  - reflexivity.
Defined.

(** ** What every precondition returns and does *)

(** The result and the events of the precondition of a command of the
    table: no error or an exit error with code 1; no event, or for [rm]
    the one question about the first argument. *)
Lemma Before_shape (today : string) (c : Command) (cx : Context)
  (w : World) :
  In c (Commands today) ->
  (fst (exec w (Before c cx)) = nil \/
   exists m : string, fst (exec w (Before c cx)) = ExitError m 1) /\
  (snd (exec w (Before c cx)) = [] \/
   Name c = "rm" /\ ctx.Bool cx "force" = false /\
   snd (exec w (Before c cx)) =
     [Asked ("Would you remove " ++ ctx.First cx)]).
Proof.
  intro H. cbn in H.
  destruct H as [<- | [<- | [<- | [<- | [<- | [<- | []]]]]]];
    cbn [Before Name].
  - unfold query_Before.
    destruct (Nat.eqb (ctx.NArg cx) 0); [cbn; split; eauto |].
    destruct (String.eqb (ctx.String cx "bucket") ""); cbn; split; eauto.
  - unfold ls_Before.
    destruct (String.eqb (ctx.String cx "bucket") ""); cbn; split; eauto.
  - unfold head_Before.
    destruct (String.eqb (ctx.String cx "bucket") "");
      [cbn; split; eauto |].
    destruct (Nat.eqb (ctx.NArg cx) 0); [cbn; split; eauto |].
    destruct (negb _); cbn; split; eauto.
  - unfold mk_Before.
    destruct (String.eqb (ctx.String cx "bucket") "");
      [cbn; split; eauto |].
    destruct (Nat.eqb (ctx.NArg cx) 0); [cbn; split; eauto |].
    destruct (Nat.leb _ _); cbn; split; eauto.
  - unfold rm_Before.
    destruct (String.eqb (ctx.String cx "bucket") "");
      [cbn; split; eauto |].
    destruct (Nat.eqb (ctx.NArg cx) 0); [cbn; split; eauto |].
    destruct (ctx.Bool cx "force"); [cbn; split; eauto |].
    cbn. destruct (prompt_Ask w _) as [[|] e]; cbn; split; eauto.
  - unfold load_Before.
    destruct (String.eqb (ctx.String cx "bucket") "");
      [cbn; split; eauto |].
    destruct (negb (strings.HasPrefix _ _)); [cbn; split; eauto |].
    destruct (negb _); cbn; split; eauto.
Qed.

(** X3: whatever the invocation and the world, the precondition of a
    command of the table returns no error or an exit error whose code is
    1: never a plain error, never another exit code. *)
Theorem rejections_have_exit_code_1 (today : string) (c : Command)
  (cx : Context) (w : World) :
  In c (Commands today) ->
  fst (exec w (Before c cx)) = nil \/
  exists m : string, fst (exec w (Before c cx)) = ExitError m 1.
Proof. intro H. exact (proj1 (Before_shape today c cx w H)). Qed.

(** [mk db.table] with a bucket is one of the rejections. *)
Lemma rejections_have_exit_code_1_witness :
  fst (exec quietWorld
         (mk_Before (mkContext [("bucket", "results")] ["db.table"]))) = nil
  \/
  exists m : string,
    fst (exec quietWorld
           (mk_Before (mkContext [("bucket", "results")] ["db.table"])))
    = ExitError m 1.
Proof.
  apply (rejections_have_exit_code_1 "2026/10/31"
           (nth 3 (Commands "2026/10/31")
              (mkCommand "" "" cmd.Ls "" [] ls_Before))
           (mkContext [("bucket", "results")] ["db.table"]) quietWorld).
  cbn. tauto.
Defined.

(** X4: a precondition writes nothing to the error stream and calls no
    action handler.  Only that of [rm] asks, only when the force flag is
    not set, at most once, and the question names the first positional
    argument alone. *)
Theorem preconditions_only_rm_asks (today : string) (c : Command)
  (cx : Context) (w : World) :
  In c (Commands today) ->
  (Name c <> "rm" \/ ctx.Bool cx "force" = true ->
   snd (exec w (Before c cx)) = []) /\
  (snd (exec w (Before c cx)) = [] \/
   snd (exec w (Before c cx)) =
     [Asked ("Would you remove " ++ ctx.First cx)]).
Proof.
  intro H. destruct (proj2 (Before_shape today c cx w H)) as [E | [N [F E]]].
  - split; [intros _; exact E | left; exact E].
  - split; [| right; exact E].
    intros [N' | F']; [contradiction | congruence].
Qed.

(** [rm logs access --force] asks nothing; [rm logs access] asks about
    [logs]. *)
Lemma preconditions_only_rm_asks_witness :
  snd (exec quietWorld
         (rm_Before
            (mkContext [("bucket", "results"); ("force", "true")]
               ["logs"; "access"]))) = [] /\
  (snd (exec quietWorld
          (rm_Before (mkContext [("bucket", "results")] ["logs"; "access"])))
     = [] \/
   snd (exec quietWorld
          (rm_Before (mkContext [("bucket", "results")] ["logs"; "access"])))
     = [Asked "Would you remove logs"]).
Proof.
  split.
  - apply (proj1
             (preconditions_only_rm_asks "2026/10/31"
                (nth 4 (Commands "2026/10/31")
                   (mkCommand "" "" cmd.Ls "" [] ls_Before))
                (mkContext [("bucket", "results"); ("force", "true")]
                   ["logs"; "access"])
                quietWorld ltac:(cbn; tauto))).
    right. reflexivity.
  - apply (proj2
             (preconditions_only_rm_asks "2026/10/31"
                (nth 4 (Commands "2026/10/31")
                   (mkCommand "" "" cmd.Ls "" [] ls_Before))
                (mkContext [("bucket", "results")] ["logs"; "access"])
                quietWorld ltac:(cbn; tauto))).
Defined.

(** ** When each command is accepted *)

(** X5: [query] is accepted exactly when there is a positional argument
    and the bucket has a value, whatever the arguments are; [ls] is
    accepted exactly when the bucket has a value, and its outcome is the
    same for all positional arguments. *)
Theorem query_ls_acceptance (w : World) (c : Context) :
  (validate w query_Before c = Accepted <-> args c <> [] /\ bucketSet c) /\
  (validate w ls_Before c = Accepted <-> bucketSet c) /\
  (forall positional : list string,
     validate w ls_Before (mkContext (flagSet c) positional) =
     validate w ls_Before c).
Proof.
  unfold validate, query_Before, ls_Before, ctx.NArg, bucketSet.
  split; [| split].
  - destruct (args c) as [| a rest]; cbn [length Nat.eqb].
    + cbn. split; [discriminate | intros [N _]; contradiction].
    + destruct (String.eqb_spec (ctx.String c "bucket") "") as [E | N]; cbn.
      * split; [discriminate | intros [_ N]; contradiction].
      * split; [intros _; split; [discriminate | exact N] | reflexivity].
  - destruct (String.eqb_spec (ctx.String c "bucket") "") as [E | N]; cbn.
    + split; [discriminate | contradiction].
    + split; [intros _; exact N | reflexivity].
  - intro positional. reflexivity.
Qed.

(** X6: with the bucket flag set and a first argument [a], [mk] accepts
    exactly when [a] has no dot.  So no argument is accepted by both [mk]
    and [head]: what [head] accepts [mk] sends to [load], and what [mk]
    accepts [head] rejects for its missing dot. *)
Theorem mk_accepts_dot_free (w : World) (c : Context) (a : string)
  (rest : list string) :
  bucketSet c -> args c = a :: rest ->
  (validate w mk_Before c = Accepted <-> count_byte "." a = 0) /\
  (validate w head_Before c = Accepted ->
   validate w mk_Before c =
     Rejected "If you want to create table, use `load` subcommand." 1) /\
  (validate w mk_Before c = Accepted ->
   validate w head_Before c =
     Rejected "[DATABASE].[TABLE] must contain `.`." 1).
Proof.
  intros Hb Ha.
  rewrite (mk_validate w c a rest Hb Ha), (head_validate w c a rest Hb Ha).
  rewrite length_Split_dot.
  destruct (count_byte "." a) as [| [| n]]; cbn;
    repeat split; intro H; try reflexivity; discriminate H.
Qed.

(** [mk logs] passes and [head logs] does not. *)
Lemma mk_accepts_dot_free_witness :
  validate quietWorld head_Before (mkContext [("bucket", "results")] ["logs"])
    = Rejected "[DATABASE].[TABLE] must contain `.`." 1.
Proof.
  refine (proj2 (proj2
            (mk_accepts_dot_free quietWorld
               (mkContext [("bucket", "results")] ["logs"]) "logs" [] _
               eq_refl)) eq_refl).
  unfold bucketSet. cbn. discriminate.
Defined.

(** X7: [load] is accepted exactly when the bucket has a value, the second
    positional argument is [s3://] followed by anything, nothing included,
    and the source format is [NEWLINE_DELIMITED_JSON]; the first and the
    third argument and the other flags have no part in it. *)
Theorem load_acceptance (w : World) (c : Context) :
  validate w load_Before c = Accepted <->
  bucketSet c /\
  (exists path : string, ctx.Get c 1 = ("s3://" ++ path)%string) /\
  ctx.String c "source_format" = "NEWLINE_DELIMITED_JSON".
Proof.
  unfold validate, load_Before, bucketSet, strings.HasPrefix.
  rewrite <- prefix_append.
  destruct (String.eqb_spec (ctx.String c "bucket") "") as [E | N].
  - cbn. split; [discriminate | intros [N _]; contradiction].
  - destruct (String.prefix "s3://" (ctx.Get c 1)); cbn [negb].
    + destruct (String.eqb_spec (ctx.String c "source_format")
                  "NEWLINE_DELIMITED_JSON") as [E | D]; cbn.
      * split; [intros _; auto | reflexivity].
      * split; [discriminate | intros [_ [_ E]]; contradiction].
    + cbn. split; [discriminate | intros [_ [P _]]; discriminate P].
Qed.

(** X8: with the bucket flag set and no positional argument, [head], [mk]
    and [rm] are rejected with exit code 1 and the message that names the
    missing argument; [rm] then asks nothing, with or without the force
    flag. *)
Theorem missing_argument_rejected (w : World) (c : Context) :
  bucketSet c -> args c = [] ->
  exec w (head_Before c) =
    (ExitError "DATABASE and TABLE must be specified." 1, []) /\
  exec w (mk_Before c) = (ExitError "DATABASE must be specified." 1, []) /\
  exec w (rm_Before c) = (ExitError "NAME must be specified." 1, []).
Proof.
  intros Hb Ha. unfold head_Before, mk_Before, rm_Before, ctx.NArg.
  rewrite (bucketSet_eqb _ Hb), Ha. repeat split.
Qed.

(** [rm --force] with a bucket and no name. *)
Lemma missing_argument_rejected_witness :
  exec quietWorld
    (rm_Before (mkContext [("bucket", "results"); ("force", "true")] [])) =
  (ExitError "NAME must be specified." 1, []).
Proof.
  refine (proj2 (proj2
            (missing_argument_rejected quietWorld
               (mkContext [("bucket", "results"); ("force", "true")] [])
               _ eq_refl))).
  unfold bucketSet. cbn. discriminate.
Defined.

(** ** The table *)

(** X9: the names of the command table are pairwise different, and the
    command found under a name is the command of the table with that
    name. *)
Theorem command_names_unique (today : string) :
  NoDup (map Name (Commands today)) /\
  forall (name : string) (c : Command),
    lookupCommand today name = Some c <->
    In c (Commands today) /\ Name c = name.
Proof.
  split.
  - cbn. repeat (constructor; [cbn; intuition discriminate |]). constructor.
  - intros name c. split.
    + intro H. destruct (lookupCommand_cases today name c H) as [N [I _]].
      split; assumption.
    + intros [I <-]. apply lookupCommand_In. exact I.
Qed.

(** X10: in every command of the table no two flags share a name or a
    short name, and the bucket and the object prefix can be given under
    both of their names. *)
Theorem flag_names_unique (today : string) (c : Command) :
  In c (Commands today) ->
  NoDup (flat_map flagNames (Flags c)) /\
  incl ["bucket"; "b"; "object_prefix"; "o"] (flat_map flagNames (Flags c)).
Proof.
  intro H. cbn in H.
  destruct H as [<- | [<- | [<- | [<- | [<- | [<- | []]]]]]];
    (split;
     [ cbn; repeat (constructor; [cbn; intuition discriminate |]);
       constructor
     | intros x Hx; cbn in Hx |- *; intuition auto ]).
Qed.

(** The flags of [load]: [bucket], [b], [object_prefix], [o],
    [source_format], [s], [partitioning], [p]. *)
Lemma flag_names_unique_witness :
  NoDup
    ["bucket"; "b"; "object_prefix"; "o"; "source_format"; "s";
     "partitioning"; "p"].
Proof.
  exact (proj1
           (flag_names_unique "2026/10/31"
              (nth 5 (Commands "2026/10/31")
                 (mkCommand "" "" cmd.Ls "" [] ls_Before))
              ltac:(cbn; tauto))).
Defined.

(** A flag without an environment variable does not read the
    environment. *)
Lemma resolveFlag_no_EnvVar (given env1 env2 : list (string * string))
  (f : Flag) :
  flagEnvVar f = "" -> resolveFlag given env1 f = resolveFlag given env2 f.
Proof. intro H. unfold resolveFlag. rewrite H. reflexivity. Qed.

Lemma resolveFlags_ext (flags : list Flag)
  (given env1 env2 : list (string * string)) :
  Forall (fun f => resolveFlag given env1 f = resolveFlag given env2 f)
    flags ->
  resolveFlags flags given env1 = resolveFlags flags given env2.
Proof.
  unfold resolveFlags. induction 1 as [| f flags Hf _ IH]; [reflexivity |].
  cbn [flat_map]. rewrite Hf, IH. reflexivity.
Qed.

(** X11: the environment reaches a command through [AQ_DEFAULT_BUCKET]
    alone, and only when the bucket is not passed on the command line:
    two environments that agree on that variable, or any two environments
    when the bucket is passed, give the same context, hence the same
    outcome of the precondition. *)
Theorem environment_only_through_bucket
  (today : string) (c : Command)
  (given env1 env2 : list (string * string)) (positional : list string) :
  In c (Commands today) ->
  lookupAny ["bucket"; "b"] given <> None \/
  lookup "AQ_DEFAULT_BUCKET" env1 = lookup "AQ_DEFAULT_BUCKET" env2 ->
  NewContext (Flags c) given env1 positional =
  NewContext (Flags c) given env2 positional.
Proof.
  intros H Hb. unfold NewContext. f_equal.
  assert (B : resolveFlag given env1 BucketFlag =
              resolveFlag given env2 BucketFlag).
  { unfold resolveFlag.
    change (lookupAny (flagNames BucketFlag) given)
      with (lookupAny ["bucket"; "b"] given).
    destruct (lookupAny ["bucket"; "b"] given) as [v |]; [reflexivity |].
    destruct Hb as [N | E]; [contradiction |].
    cbn [flagEnvVar BucketFlag]. rewrite E. reflexivity. }
  cbn in H.
  destruct H as [<- | [<- | [<- | [<- | [<- | [<- | []]]]]]];
    cbn [Flags]; apply resolveFlags_ext;
    repeat (constructor;
            [first [exact B | apply resolveFlag_no_EnvVar; reflexivity] |]);
    constructor.
Qed.

(** [query] with [--bucket=results] in two different environments. *)
Lemma environment_only_through_bucket_witness :
  let queryCommand :=
    nth 0 (Commands "2026/10/31") (mkCommand "" "" cmd.Ls "" [] ls_Before) in
  NewContext (Flags queryCommand) [("bucket", "results")]
    [("AQ_DEFAULT_BUCKET", "other")] ["select 1"] =
  NewContext (Flags queryCommand) [("bucket", "results")] [] ["select 1"].
Proof.
  intro queryCommand.
  apply (environment_only_through_bucket "2026/10/31" queryCommand).
  - cbn. tauto.
  - left. cbn. discriminate.
Defined.

(** X12: for the [rm] command of the table, with a bucket, at least one
    name and the force flag not passed on the command line, the
    precondition asks exactly once, about the first name, and the answer
    alone decides: [true] accepts, [false] cancels. *)
Theorem rm_asks_unless_forced
  (today : string) (c : Command)
  (given environ : list (string * string)) (first : string)
  (rest : list string) (w : World) :
  lookupCommand today "rm" = Some c ->
  let cx := NewContext (Flags c) given environ (first :: rest) in
  bucketSet cx ->
  lookupAny ["force"; "f"] given = None ->
  exec w (Before c cx) =
    (if fst (prompt_Ask w ("Would you remove " ++ first)) then nil
     else ExitError "Canceled." 1,
     [Asked ("Would you remove " ++ first)]).
Proof.
  intros H cx Hb Hf. unfold lookupCommand, Commands in H.
  cbn [find Name String.eqb Ascii.eqb Bool.eqb] in H.
  injection H as E. subst c. cbn [Before].
  assert (Ha : args cx <> []) by (cbn; discriminate).
  rewrite (rm_exec w cx Hb Ha).
  assert (F : ctx.Bool cx "force" = false).
  { unfold ctx.Bool.
    change (lookup "force" (flagSet cx))
      with (Some (match lookupAny ["force"; "f"] given with
                  | Some v => v
                  | None => "false"
                  end)).
    rewrite Hf. reflexivity. }
  rewrite F. reflexivity.
Qed.

(** [rm logs access --bucket=results] in a world that declines. *)
Lemma rm_asks_unless_forced_witness :
  let rmCommand :=
    nth 4 (Commands "2026/10/31") (mkCommand "" "" cmd.Ls "" [] ls_Before) in
  exec quietWorld
    (rm_Before
       (NewContext (Flags rmCommand) [("bucket", "results")] []
          ["logs"; "access"])) =
  (ExitError "Canceled." 1, [Asked "Would you remove logs"]).
Proof.
  intro rmCommand.
  refine (rm_asks_unless_forced "2026/10/31" rmCommand
            [("bucket", "results")] [] "logs" ["access"] quietWorld
            eq_refl _ eq_refl).
  unfold bucketSet. cbn. discriminate.
Defined.

(** ** The exit code of the process *)

Lemma appRun_exit_code (today : string) (environ : list (string * string))
  (inv : Invocation) (w : World) (code : Z) :
  fst (exec w (appRun today environ inv)) = Exited code -> code = 1%Z.
Proof.
  unfold appRun.
  destruct (subcommand inv) as [tok |]; [| discriminate].
  destruct (lookupCommand today tok) as [c |] eqn:L; [| discriminate].
  destruct (lookupCommand_cases today tok c L) as [_ [I _]].
  unfold commandRun. rewrite exec_bind. cbn [fst].
  destruct (proj1 (Before_shape today c
                     (NewContext (Flags c) (given inv) environ
                        (positional inv)) w I)) as [E | [m E]];
    rewrite E.
  - rewrite exec_bind. cbn. discriminate.
  - cbn. intro H. injection H as <-. reflexivity.
Qed.

(** X13: whatever the invocation, the environment and the world, the exit
    code that [Run] returns is 0 or 1. *)
Theorem Run_exit_code_0_or_1
  (today : string) (environ : list (string * string)) (inv : Invocation)
  (w : World) :
  fst (exec w (Run today environ inv)) = 0%Z \/
  fst (exec w (Run today environ inv)) = 1%Z.
Proof.
  unfold Run. rewrite exec_bind. cbn [fst].
  destruct (fst (exec w (appRun today environ inv))) as [code | err] eqn:R.
  - right. cbn. apply (appRun_exit_code today environ inv w code R).
  - destruct err; cbn; auto.
Qed.

(** ** What the preconditions do not read *)

(** X14: the precondition of a command of the table reads the positional
    arguments and the flags [bucket], [force] and [source_format], and
    nothing else: two contexts that agree on these give the same result
    and the same events, whatever [object_prefix], [timeout], [max_rows]
    and [partitioning] are. *)
Theorem preconditions_read_three_flags (today : string) (c : Command)
  (cx cx' : Context) (w : World) :
  In c (Commands today) ->
  args cx = args cx' ->
  ctx.String cx "bucket" = ctx.String cx' "bucket" ->
  ctx.Bool cx "force" = ctx.Bool cx' "force" ->
  ctx.String cx "source_format" = ctx.String cx' "source_format" ->
  exec w (Before c cx) = exec w (Before c cx').
Proof.
  intros H Ha Hb Hf Hs. cbn in H.
  destruct H as [<- | [<- | [<- | [<- | [<- | [<- | []]]]]]];
    cbn [Before];
    unfold query_Before, ls_Before, head_Before, mk_Before, rm_Before,
      load_Before, ctx.NArg, ctx.First, ctx.Get;
    rewrite ?Ha, ?Hb, ?Hf, ?Hs; reflexivity.
Qed.

(** [query] with two different object prefixes and timeouts. *)
Lemma preconditions_read_three_flags_witness :
  exec quietWorld
    (query_Before
       (mkContext
          [("bucket", "results"); ("object_prefix", "Saved/a");
           ("timeout", "30")] ["select 1"])) =
  exec quietWorld
    (query_Before
       (mkContext
          [("bucket", "results"); ("object_prefix", "Unsaved/b");
           ("timeout", "0")] ["select 1"])).
Proof.
  apply (preconditions_read_three_flags "2026/10/31"
           (nth 0 (Commands "2026/10/31")
              (mkCommand "" "" cmd.Ls "" [] ls_Before)));
    [cbn; tauto | reflexivity ..].
Defined.

(** X15: in every command of the table the object prefix that is not
    passed on the command line is [Unsaved/] followed by the date of the
    start of the program, under both names of the flag and whatever the
    environment holds. *)
Theorem object_prefix_default
  (today : string) (c : Command)
  (given environ : list (string * string)) (positional : list string) :
  In c (Commands today) ->
  lookupAny ["object_prefix"; "o"] given = None ->
  let cx := NewContext (Flags c) given environ positional in
  ctx.String cx "object_prefix" = ("Unsaved/" ++ today)%string /\
  ctx.String cx "o" = ("Unsaved/" ++ today)%string.
Proof.
  intros H Hg cx.
  assert (R : resolveFlag given environ (ObjectPrefixFlag today) =
              ("Unsaved/" ++ today)%string).
  { unfold resolveFlag.
    change (lookupAny (flagNames (ObjectPrefixFlag today)) given)
      with (lookupAny ["object_prefix"; "o"] given).
    rewrite Hg. reflexivity. }
  cbn in H.
  destruct H as [<- | [<- | [<- | [<- | [<- | [<- | []]]]]]];
    split; exact R.
Qed.

(** [ls --bucket=results] started on 2026/10/31. *)
Lemma object_prefix_default_witness :
  ctx.String
    (NewContext
       (Flags
          (nth 1 (Commands "2026/10/31")
             (mkCommand "" "" cmd.Ls "" [] ls_Before)))
       [("bucket", "results")] [("AQ_DEFAULT_BUCKET", "other")] [])
    "object_prefix" = "Unsaved/2026/10/31".
Proof.
  refine (proj1
            (object_prefix_default "2026/10/31"
               (nth 1 (Commands "2026/10/31")
                  (mkCommand "" "" cmd.Ls "" [] ls_Before))
               [("bucket", "results")] [("AQ_DEFAULT_BUCKET", "other")] []
               _ eq_refl)).
  cbn. tauto.
Defined.
